(** * QuantLib cash-flow core: equity (quanto) cash flows, zero-inflation
      cash flows and the TARGET calendar.

    Shallow embedding of
      - ql/time/calendars/target.{hpp,cpp}
      - ql/cashflows/equitycashflow.cpp
      - ql/cashflows/zeroinflationcashflow.cpp

    Conventions.
      - [Real] (a C++ double) is idealised as the mathematical reals [R];
        rounding is not modelled. Statements about values are kept to the
        expressions the code evaluates; where a rearrangement would be true
        of reals but not of doubles, [Binary64] evaluates the code's
        expression on binary64.
      - [QL_REQUIRE(c, msg)] / [QL_FAIL(msg)] raise a [QuantLib::Error] that
        carries [msg]; a call that can raise returns an [outcome].
      - A [Date] is its serial number, so date comparison is integer
        comparison.
      - Collaborators whose code is not among the sources (index fixings,
        reference dates, date arithmetic, the lagged CPI fixing) are taken as
        parameters; the few that had to be written out are marked
        "Modelled from the spec". *)

From Stdlib Require Import ZArith String Bool Reals Lra Lia.
From Stdlib Require PrimFloat.
From stdpp Require Import base decidable functions gmap.

Set Warnings "-register-all".
Local Open Scope Z_scope.

(* ===================================================================== *)
(** ** Errors *)
(* ===================================================================== *)

(** Result of a call that may raise [QuantLib::Error]. *)
Inductive outcome (A : Type) : Type :=
| Returns (a : A)
| Throws (msg : string).
Arguments Returns {A} a.
Arguments Throws {A} msg%_string.

Global Instance outcome_ret : MRet outcome := fun A a => Returns a.

Global Instance outcome_bind : MBind outcome := fun A B k c =>
  match c with
  | Returns a => k a
  | Throws m => Throws m
  end.

Global Instance outcome_fmap : FMap outcome := fun A B f c =>
  match c with
  | Returns a => Returns (f a)
  | Throws m => Throws m
  end.

(** [QL_REQUIRE(cond, msg)]. *)
Definition QL_REQUIRE (cond : bool) (msg : string) : outcome unit :=
  if cond then Returns tt else Throws msg.

(** [QL_FAIL(msg)]. *)
Definition QL_FAIL {A} (msg : string) : outcome A := Throws msg.

Definition returned {A} (c : outcome A) : Prop := exists a, c = Returns a.
Definition thrown {A} (c : outcome A) : Prop := exists m, c = Throws m.

(* ===================================================================== *)
(** ** TARGET calendar (ql/time/calendars/target.cpp) *)
(* ===================================================================== *)

Module TARGET.

Inductive Weekday :=
| Sunday | Monday | Tuesday | Wednesday | Thursday | Friday | Saturday.

Inductive Month :=
| January | February | March | April | May | June
| July | August | September | October | November | December.

Definition Day := Z.
Definition Year := Z.

Definition Month_eqb (a b : Month) : bool :=
  match a, b with
  | January, January | February, February | March, March | April, April
  | May, May | June, June | July, July | August, August
  | September, September | October, October | November, November
  | December, December => true
  | _, _ => false
  end.

(** Modelled from the spec: [Calendar::WesternImpl::isWeekend] (calendar.cpp
    is not among the sources). The spec leaves calendars to a collaborator;
    the weekend taken here is the one target.hpp documents for this
    calendar, "Saturdays" and "Sundays". *)
Definition isWeekend (w : Weekday) : bool :=
  match w with
  | Saturday | Sunday => true
  | _ => false
  end.

Section Impl.
(** What [isBusinessDay] reads from a [Date], and the Easter-Monday table
    of [Calendar::WesternImpl] (day of the year, per year). *)
Context {Date : Type}.
Variable weekday : Date -> Weekday.
Variable dayOfMonth : Date -> Day.
Variable dayOfYear : Date -> Day.
Variable month : Date -> Month.
Variable year : Date -> Year.
Variable easterMonday : Year -> Day.

(** [TARGET::Impl::isBusinessDay]. *)
Definition isBusinessDay (date : Date) : bool :=
  let w := weekday date in
  let d := dayOfMonth date in
  let dd := dayOfYear date in
  let m := month date in
  let y := year date in
  let em := easterMonday y in
  if isWeekend w
     (* New Year's Day *)
     || ((d =? 1) && Month_eqb m January)
     (* Good Friday *)
     || ((dd =? em - 3) && (y >=? 2000))
     (* Easter Monday *)
     || ((dd =? em) && (y >=? 2000))
     (* Labour Day *)
     || ((d =? 1) && Month_eqb m May && (y >=? 2000))
     (* Christmas *)
     || ((d =? 25) && Month_eqb m December)
     (* Day of Goodwill *)
     || ((d =? 26) && Month_eqb m December && (y >=? 2000))
     (* December 31st, 1998, 1999, and 2001 only *)
     || ((d =? 31) && Month_eqb m December &&
         ((y =? 1998) || (y =? 1999) || (y =? 2001)))
  then false
  else true.

(** The holiday list in the words of target.hpp. *)
Definition isSaturdayOrSunday (date : Date) : Prop :=
  weekday date = Saturday \/ weekday date = Sunday.

Definition onDayOfMonth (date : Date) (d : Day) (m : Month) : Prop :=
  dayOfMonth date = d /\ month date = m.

Definition since2000 (date : Date) : Prop := 2000 <= year date.

Definition isEasterMonday (date : Date) : Prop :=
  dayOfYear date = easterMonday (year date).

Definition isGoodFriday (date : Date) : Prop :=
  dayOfYear date = easterMonday (year date) - 3.

Definition isTargetHoliday (date : Date) : Prop :=
  onDayOfMonth date 1 January
  \/ (isGoodFriday date /\ since2000 date)
  \/ (isEasterMonday date /\ since2000 date)
  \/ (onDayOfMonth date 1 May /\ since2000 date)
  \/ onDayOfMonth date 25 December
  \/ (onDayOfMonth date 26 December /\ since2000 date)
  \/ (onDayOfMonth date 31 December /\
      (year date = 1998 \/ year date = 1999 \/ year date = 2001)).

End Impl.

End TARGET.

(* ===================================================================== *)
(** ** Market data seen by the cash flows *)
(* ===================================================================== *)

(** A date is its serial number. *)
Definition Date := Z.

(** [Handle<T>]: a link to zero or one shared object. *)
Definition Handle (A : Type) := option A.

Definition empty {A} (h : Handle A) : bool :=
  match h with
  | None => true
  | Some _ => false
  end.

(** Modelled from the spec: [Handle<T>::operator->] (handle.hpp is not among
    the sources). "Querying an empty handle for a value fails with a
    configuration error (not a crash)". *)
Definition deref {A} (h : Handle A) : outcome A :=
  match h with
  | Some a => Returns a
  | None => Throws "empty Handle cannot be dereferenced"
  end.

(** Day counters and calendars named in the sources. *)
Inductive DayCounter := Actual365Fixed | Actual360 | Thirty360 | ActualActual.

Inductive Calendar := NullCalendar | TARGETCalendar.

(** [SimpleQuote]. *)
Record Quote := SimpleQuote { value : R }.

(** A volatility surface is an external collaborator; only its identity is
    kept here, its reference date is read through [Market]. *)
Record BlackVolTermStructure := BlackVol { volSurfaceName : string }.

(** Yield curves: a curve supplied from outside, and the two kinds that
    equitycashflow.cpp builds itself. The arguments of [FlatForward] and
    [QuantoTermStructure] are those of the constructor calls, in order. *)
Inductive YieldTermStructure :=
| MarketCurve (name : string) (dc : DayCounter)
| FlatForward (settlementDays : Z) (calendar : Calendar)
              (forward : Handle Quote) (dc : DayCounter)
| QuantoTermStructure
    (underlyingDividendTS riskFreeTS foreignRiskFreeTS : Handle YieldTermStructure)
    (underlyingBlackVolTS : Handle BlackVolTermStructure)
    (strike : R)
    (exchRateBlackVolTS : Handle BlackVolTermStructure)
    (exchRateATMlevel : R)
    (underlyingExchRateCorrelation : R).

(** The day counter a curve was given. That of a derived quanto curve is fixed
    in quantotermstructure.hpp, which is not among the sources. *)
Definition dayCounter (ts : YieldTermStructure) : option DayCounter :=
  match ts with
  | MarketCurve _ dc => Some dc
  | FlatForward _ _ _ dc => Some dc
  | QuantoTermStructure _ _ _ _ _ _ _ _ => None
  end.

(** [EquityIndex]: its name (which keys the shared store of historical
    fixings) and the three handles it is bound to. *)
Record EquityIndex := {
  indexName : string;
  equityInterestRateCurve : Handle YieldTermStructure;
  equityDividendCurve : Handle YieldTermStructure;
  spot : Handle Quote
}.

(** Modelled from the spec: [EquityIndex::clone] (equityindex.cpp is not among
    the sources). "Produces a new Index instance sharing the same historical
    fixings but bound to different term structures". *)
Definition clone (i : EquityIndex)
    (interest dividend : Handle YieldTermStructure) (spot : Handle Quote)
    : EquityIndex :=
  {| indexName := indexName i;
     equityInterestRateCurve := interest;
     equityDividendCurve := dividend;
     spot := spot |}.

(** The read interfaces of the collaborators at the time of a call:
    [EquityIndex::fixing] and [TermStructure::referenceDate]. *)
Record Market := {
  fixing : EquityIndex -> Date -> outcome R;
  yieldReferenceDate : YieldTermStructure -> Date;
  volReferenceDate : BlackVolTermStructure -> Date
}.

(* ===================================================================== *)
(** ** Methods that mutate [this] and may raise *)
(* ===================================================================== *)

(** A member function on an object of type [S]: the object after the call is
    kept also when the call raises, since the fields assigned before a failing
    [QL_REQUIRE] stay assigned. *)
Definition method (S A : Type) : Type := S -> outcome A * S.

Global Instance method_ret {S} : MRet (method S) := fun A a s => (Returns a, s).

Global Instance method_bind {S} : MBind (method S) := fun A B k c s =>
  match c s with
  | (Returns a, s') => k a s'
  | (Throws m, s') => (Throws m, s')
  end.

Definition get {S} : method S S := fun s => (Returns s, s).
Definition modify {S} (f : S -> S) : method S unit := fun s => (Returns tt, f s).
Definition lift {S A} (c : outcome A) : method S A := fun s => (c, s).
Definition require {S} (cond : bool) (msg : string) : method S unit :=
  lift (QL_REQUIRE cond msg).

(** Dereferencing a [shared_ptr]. A null pointer has no pointee: the C++ call
    has no defined result, which is rendered as a failure. *)
Definition pointee {A} (p : option A) : outcome A :=
  match p with
  | Some a => Returns a
  | None => Throws "null pointer dereferenced"
  end.

(* ===================================================================== *)
(** ** IndexedCashFlow, the base class of both cash flows *)
(* ===================================================================== *)

(** Observers and pricers are identified by their address. *)
Definition ObserverId := positive.
Definition PricerId := positive.

(** Modelled from the spec: the [IndexedCashFlow] base object
    (indexedcashflow.hpp/.cpp are not among the sources). "Each owns notional,
    the index it links to, base/fixing/payment dates, and a growth-only
    flag"; as a lazy object it "stores an optional cached value plus a
    boolean validity flag", and as an observable it has "a set of registered
    observer references". *)
Record IndexedCashFlow (I : Type) := {
  notional : R;
  index : option I;
  baseDate : Date;
  fixingDate : Date;
  paymentDate : Date;
  growthOnly : bool;
  calculated_ : bool;
  amount_ : R;
  observers_ : list ObserverId
}.
Arguments notional {I} _.
Arguments index {I} _.
Arguments baseDate {I} _.
Arguments fixingDate {I} _.
Arguments paymentDate {I} _.
Arguments growthOnly {I} _.
Arguments calculated_ {I} _.
Arguments amount_ {I} _.
Arguments observers_ {I} _.

Module IndexedCashFlow.
Section Base.
Context {I : Type}.
(** [Index::fixing] of the linked index. *)
Variable fixingOf : I -> Date -> outcome R.

(** The constructor stores its arguments; nothing is calculated yet. *)
Definition new (notional : R) (index : option I)
    (baseDate fixingDate paymentDate : Date) (growthOnly : bool)
    : IndexedCashFlow I :=
  {| notional := notional; index := index; baseDate := baseDate;
     fixingDate := fixingDate; paymentDate := paymentDate;
     growthOnly := growthOnly;
     calculated_ := false; amount_ := 0%R; observers_ := [] |}.

Definition set_cache (calc : bool) (a : R) (c : IndexedCashFlow I)
    : IndexedCashFlow I :=
  {| notional := notional c; index := index c; baseDate := baseDate c;
     fixingDate := fixingDate c; paymentDate := paymentDate c;
     growthOnly := growthOnly c;
     calculated_ := calc; amount_ := a; observers_ := observers_ c |}.

(** Modelled from the spec: the default [baseFixing]/[indexFixing], "the
    ratio/delta of an index between two dates": the index fixing at the
    stored base date and at the stored fixing date. *)
Definition baseFixing (c : IndexedCashFlow I) : outcome R :=
  i ← pointee (index c); fixingOf i (baseDate c).

Definition indexFixing (c : IndexedCashFlow I) : outcome R :=
  i ← pointee (index c); fixingOf i (fixingDate c).

(** The plain index ratio of section 4.4 of the spec. *)
Definition ratio (growthOnly : bool) (I0 I1 : R) : R :=
  if growthOnly then (I1 / I0 - 1)%R else (I1 / I0)%R.

(** Modelled from the spec: [IndexedCashFlow::performCalculations], with
    the two fixings passed in because both are virtual. The end-to-end
    scenario of the spec ("amount() == notional * 1.10") fixes the
    notional factor. *)
Definition performCalculations (baseFixing indexFixing : outcome R)
    (c : IndexedCashFlow I) : outcome R :=
  I0 ← baseFixing; I1 ← indexFixing;
  mret (notional c * ratio (growthOnly c) I0 I1)%R.

(** Modelled from the spec: [IndexedCashFlow::amount]. "Value-producing
    calls check validity, recompute and re-validate on miss." *)
Definition amount (baseFixing indexFixing : outcome R)
    : method (IndexedCashFlow I) R := fun c =>
  if calculated_ c then (Returns (amount_ c), c)
  else match performCalculations baseFixing indexFixing c with
       | Returns a => (Returns a, set_cache true a c)
       | Throws m => (Throws m, c)
       end.

(** Modelled from the spec: [update()] "only marks local cached state
    invalid (sets a dirty flag) and, if the receiver is itself
    Observable, forwards the notification to its own observers". The
    second component lists the observers whose [update()] is called. *)
Definition update (c : IndexedCashFlow I)
    : IndexedCashFlow I * list ObserverId :=
  (set_cache false (amount_ c) c, observers_ c).
End Base.
End IndexedCashFlow.

(* ===================================================================== *)
(** ** EquityCashFlow and its pricers (ql/cashflows/equitycashflow.cpp) *)
(* ===================================================================== *)

(** [EquityCashFlow : IndexedCashFlow], an [Observer] with an optional,
    shared pricer. *)
Record EquityCashFlow := {
  self : ObserverId;
  base : IndexedCashFlow EquityIndex;
  pricer_ : option PricerId
}.

(** [EquityCashFlowPricer]: the abstract pricer interface. [initialize]
    mutates the pricer, [price] is [const]. *)
Class EquityCashFlowPricer (P : Type) := {
  initialize : EquityCashFlow -> method P unit;
  price : P -> outcome R
}.

(** The objects a cash flow shares with others: the pricers behind their
    pointers, who observes each pricer, and the [update()] calls that left
    towards observers outside the model. *)
Record World (P : Type) := {
  pricers : PricerId -> P;
  observersOf : PricerId -> gset ObserverId;
  notifications : list ObserverId
}.
Arguments pricers {P} _.
Arguments observersOf {P} _.
Arguments notifications {P} _.

Module EquityCashFlow.

(** [EquityCashFlow::EquityCashFlow]. *)
Definition new (self : ObserverId) (notional : R)
    (index : option EquityIndex)
    (baseDate fixingDate paymentDate : Date) (growthOnly : bool)
    : EquityCashFlow :=
  {| self := self;
     base := IndexedCashFlow.new notional index baseDate fixingDate
               paymentDate growthOnly;
     pricer_ := None |}.

Definition set_base (b : IndexedCashFlow EquityIndex) (c : EquityCashFlow)
    : EquityCashFlow :=
  {| self := self c; base := b; pricer_ := pricer_ c |}.

Definition set_pricer_ (p : option PricerId) (c : EquityCashFlow)
    : EquityCashFlow :=
  {| self := self c; base := base c; pricer_ := p |}.

Section Methods.
Context {P : Type} `{EquityCashFlowPricer P}.
Variable mkt : Market.

(** A member function of the cash flow sees the cash flow itself and the
    shared objects. *)
Definition State : Type := EquityCashFlow * World P.

Definition set_observersOf (f : PricerId -> gset ObserverId) (w : World P)
    : World P :=
  {| pricers := pricers w; observersOf := f;
     notifications := notifications w |}.

(** Modelled from the spec: [Observer::registerWith] and
    [Observer::unregisterWith] (observable.hpp is not among the
    sources): "subscribes the caller to target's change notifications",
    "removes the subscription". *)
Definition registerWith (h : PricerId) : method State unit :=
  modify (fun '(c, w) =>
    (c, set_observersOf (<[h := {[self c]} ∪ observersOf w h]> (observersOf w)) w)).

Definition unregisterWith (h : PricerId) : method State unit :=
  modify (fun '(c, w) =>
    (c, set_observersOf (<[h := observersOf w h ∖ {[self c]}]> (observersOf w)) w)).

(** [update()], inherited from the base object. *)
Definition update : method State unit :=
  modify (fun '(c, w) =>
    let '(b, told) := IndexedCashFlow.update (base c) in
    (set_base b c,
     {| pricers := pricers w; observersOf := observersOf w;
        notifications := notifications w ++ told |})).

(** [EquityCashFlow::setPricer]. *)
Definition setPricer (pricer : option PricerId) : method State unit :=
  '(c, _) ← get;
  match pricer_ c with
  | Some old => unregisterWith old
  | None => mret tt
  end;;
  modify (fun '(c, w) => (set_pricer_ pricer c, w));;
  '(c, _) ← get;
  match pricer_ c with
  | Some p => registerWith p
  | None => mret tt
  end;;
  update.

(** Running a member function of the pricer behind pointer [pid]. *)
Definition onPricer {A} (pid : PricerId) (m : method P A)
    : method State A := fun '(c, w) =>
  let '(r, p') := m (pricers w pid) in
  (r, (c, {| pricers := <[pid := p']> (pricers w);
             observersOf := observersOf w;
             notifications := notifications w |})).

(** [IndexedCashFlow::amount] on the base object of the cash flow. *)
Definition baseAmount : method State R := fun '(c, w) =>
  let b := base c in
  let '(r, b') :=
    IndexedCashFlow.amount
      (IndexedCashFlow.baseFixing (fixing mkt) b)
      (IndexedCashFlow.indexFixing (fixing mkt) b) b in
  (r, (set_base b' c, w)).

(** [EquityCashFlow::amount]. *)
Definition amount : method State R :=
  '(c, _) ← get;
  match pricer_ c with
  | None => baseAmount
  | Some pid =>
      onPricer pid (initialize c);;
      x ← onPricer pid (fun p => (price p, p));
      mret (notional (base c) * x)%R
  end.
End Methods.

End EquityCashFlow.

(** The state of an [EquityQuantoCashFlowPricer]: its four market-data
    handles, and what [initialize] copies from the cash flow. *)
Record EquityQuantoCashFlowPricer := {
  quantoCurrencyTermStructure_ : Handle YieldTermStructure;
  equityVolatility_ : Handle BlackVolTermStructure;
  fxVolatility_ : Handle BlackVolTermStructure;
  correlation_ : Handle Quote;
  index_ : option EquityIndex;
  baseDate_ : Date;
  fixingDate_ : Date;
  growthOnlyPayoff_ : bool
}.

Module EquityQuantoCashFlowPricer.

Definition set_index_ (i : option EquityIndex)
    (p : EquityQuantoCashFlowPricer) : EquityQuantoCashFlowPricer :=
  {| quantoCurrencyTermStructure_ := quantoCurrencyTermStructure_ p;
     equityVolatility_ := equityVolatility_ p;
     fxVolatility_ := fxVolatility_ p;
     correlation_ := correlation_ p;
     index_ := i;
     baseDate_ := baseDate_ p;
     fixingDate_ := fixingDate_ p;
     growthOnlyPayoff_ := growthOnlyPayoff_ p |}.

Definition set_baseDate_ (d : Date)
    (p : EquityQuantoCashFlowPricer) : EquityQuantoCashFlowPricer :=
  {| quantoCurrencyTermStructure_ := quantoCurrencyTermStructure_ p;
     equityVolatility_ := equityVolatility_ p;
     fxVolatility_ := fxVolatility_ p;
     correlation_ := correlation_ p;
     index_ := index_ p;
     baseDate_ := d;
     fixingDate_ := fixingDate_ p;
     growthOnlyPayoff_ := growthOnlyPayoff_ p |}.

Definition set_fixingDate_ (d : Date)
    (p : EquityQuantoCashFlowPricer) : EquityQuantoCashFlowPricer :=
  {| quantoCurrencyTermStructure_ := quantoCurrencyTermStructure_ p;
     equityVolatility_ := equityVolatility_ p;
     fxVolatility_ := fxVolatility_ p;
     correlation_ := correlation_ p;
     index_ := index_ p;
     baseDate_ := baseDate_ p;
     fixingDate_ := d;
     growthOnlyPayoff_ := growthOnlyPayoff_ p |}.

Definition set_growthOnlyPayoff_ (g : bool)
    (p : EquityQuantoCashFlowPricer) : EquityQuantoCashFlowPricer :=
  {| quantoCurrencyTermStructure_ := quantoCurrencyTermStructure_ p;
     equityVolatility_ := equityVolatility_ p;
     fxVolatility_ := fxVolatility_ p;
     correlation_ := correlation_ p;
     index_ := index_ p;
     baseDate_ := baseDate_ p;
     fixingDate_ := fixingDate_ p;
     growthOnlyPayoff_ := g |}.

(** [configureDividendHandle]. *)
Definition configureDividendHandle (dividendHandle : Handle YieldTermStructure)
    : Handle YieldTermStructure :=
  if empty dividendHandle then
    let flatTs :=
      FlatForward 0 NullCalendar (Some (SimpleQuote 0%R)) Actual365Fixed in
    Some flatTs
  else dividendHandle.

Section Methods.
Variable mkt : Market.

(** [EquityQuantoCashFlowPricer::initialize]. *)
Definition initialize (cashFlow : EquityCashFlow)
    : method EquityQuantoCashFlowPricer unit :=
  modify (set_index_ (index (base cashFlow)));;
  this ← get;
  (if index_ this is None then lift (QL_FAIL "Equity index required.")
   else mret tt);;
  modify (set_baseDate_ (baseDate (base cashFlow)));;
  modify (set_fixingDate_ (fixingDate (base cashFlow)));;
  this ← get;
  require (fixingDate_ this >=? baseDate_ this)
          "Fixing date cannot fall before base date.";;
  modify (set_growthOnlyPayoff_ (growthOnly (base cashFlow)));;
  this ← get;
  require (negb (empty (quantoCurrencyTermStructure_ this)))
          "Quanto currency term structure handle cannot be empty.";;
  require (negb (empty (equityVolatility_ this)))
          "Equity volatility term structure handle cannot be empty.";;
  require (negb (empty (fxVolatility_ this)))
          "FX volatility term structure handle cannot be empty.";;
  require (negb (empty (correlation_ this)))
          "Correlation handle cannot be empty.";;
  quanto ← lift (deref (quantoCurrencyTermStructure_ this));
  equityVol ← lift (deref (equityVolatility_ this));
  fxVol ← lift (deref (fxVolatility_ this));
  require ((yieldReferenceDate mkt quanto =? volReferenceDate mkt equityVol)
           && (volReferenceDate mkt equityVol =? volReferenceDate mkt fxVol))
          "Quanto currency term structure, equity and FX volatility need to have the same reference date.".

(** The index that [price] values: the clone of the pricer's index on the
    quanto-adjusted curves. *)
Definition quantoTermStructure (this : EquityQuantoCashFlowPricer)
    (i : EquityIndex) (strike rho : R) : YieldTermStructure :=
  let dividendHandle := configureDividendHandle (equityDividendCurve i) in
  QuantoTermStructure dividendHandle (quantoCurrencyTermStructure_ this)
    (equityInterestRateCurve i) (equityVolatility_ this) strike
    (fxVolatility_ this) 1%R rho.

(** [EquityQuantoCashFlowPricer::price]. *)
Definition price (this : EquityQuantoCashFlowPricer) : outcome R :=
  i ← pointee (index_ this);
  strike ← fixing mkt i (fixingDate_ this);
  correlation ← deref (correlation_ this);
  let quantoTermStructure : Handle YieldTermStructure :=
    Some (quantoTermStructure this i strike (value correlation)) in
  let quantoIndex :=
    clone i (quantoCurrencyTermStructure_ this) quantoTermStructure (spot i) in
  I0 ← fixing mkt quantoIndex (baseDate_ this);
  I1 ← fixing mkt quantoIndex (fixingDate_ this);
  if growthOnlyPayoff_ this then mret (I1 / I0 - 1)%R
  else mret (I1 / I0)%R.
End Methods.

End EquityQuantoCashFlowPricer.

(** [EquityQuantoCashFlowPricer] implements the pricer interface. *)
Definition quantoPricer (mkt : Market)
    : EquityCashFlowPricer EquityQuantoCashFlowPricer :=
  {| initialize := EquityQuantoCashFlowPricer.initialize mkt;
     price := EquityQuantoCashFlowPricer.price mkt |}.

(* ===================================================================== *)
(** ** ZeroInflationCashFlow (ql/cashflows/zeroinflationcashflow.cpp) *)
(* ===================================================================== *)

(** [ZeroInflationCashFlow : IndexedCashFlow]. The index class, [Period] and
    [CPI::InterpolationType] are declared outside the sources and are left
    abstract. *)
Record ZeroInflationCashFlow (ZeroInflationIndex Period InterpolationType : Type) := {
  zbase : IndexedCashFlow ZeroInflationIndex;
  zeroInflationIndex_ : option ZeroInflationIndex;
  interpolation_ : InterpolationType;
  startDate_ : Date;
  endDate_ : Date;
  observationLag_ : Period
}.
Arguments zbase {_ _ _} _.
Arguments zeroInflationIndex_ {_ _ _} _.
Arguments interpolation_ {_ _ _} _.
Arguments startDate_ {_ _ _} _.
Arguments endDate_ {_ _ _} _.
Arguments observationLag_ {_ _ _} _.

Module ZeroInflationCashFlow.
Section Methods.
Context {ZeroInflationIndex Period InterpolationType : Type}.
(** [Date operator-(const Date&, const Period&)]. *)
Variable minus : Date -> Period -> Date.
(** [CPI::laggedFixing(index, date, observationLag, interpolationType)]. *)
Variable laggedFixing :
  option ZeroInflationIndex -> Date -> Period -> InterpolationType -> outcome R.

Local Abbreviation ZeroInflationCashFlow :=
  (ZeroInflationCashFlow ZeroInflationIndex Period InterpolationType).

(** [ZeroInflationCashFlow::ZeroInflationCashFlow]. *)
Definition new (notional : R) (index : option ZeroInflationIndex)
    (observationInterpolation : InterpolationType)
    (startDate endDate : Date) (observationLag : Period)
    (paymentDate : Date) (growthOnly : bool) : ZeroInflationCashFlow :=
  {| zbase := IndexedCashFlow.new notional index
                (minus startDate observationLag)
                (minus endDate observationLag)
                paymentDate growthOnly;
     zeroInflationIndex_ := index;
     interpolation_ := observationInterpolation;
     startDate_ := startDate;
     endDate_ := endDate;
     observationLag_ := observationLag |}.

(** [ZeroInflationCashFlow::baseFixing]. *)
Definition baseFixing (this : ZeroInflationCashFlow) : outcome R :=
  laggedFixing (zeroInflationIndex_ this) (startDate_ this)
               (observationLag_ this) (interpolation_ this).

(** [ZeroInflationCashFlow::indexFixing]. *)
Definition indexFixing (this : ZeroInflationCashFlow) : outcome R :=
  laggedFixing (zeroInflationIndex_ this) (endDate_ this)
               (observationLag_ this) (interpolation_ this).

(** The inherited [amount()], with the two overriders above in place of
    the base-class fixings. *)
Definition amount : method ZeroInflationCashFlow R := fun this =>
  let '(r, b) :=
    IndexedCashFlow.amount (baseFixing this) (indexFixing this) (zbase this) in
  (r, {| zbase := b;
         zeroInflationIndex_ := zeroInflationIndex_ this;
         interpolation_ := interpolation_ this;
         startDate_ := startDate_ this;
         endDate_ := endDate_ this;
         observationLag_ := observationLag_ this |}).
End Methods.
End ZeroInflationCashFlow.

(* ===================================================================== *)
(** ** Vocabulary of the statements *)
(* ===================================================================== *)

(** The dividend curve a quanto-adjusted curve was built from. *)
Definition underlyingDividendTS (ts : YieldTermStructure)
    : Handle YieldTermStructure :=
  match ts with
  | QuantoTermStructure d _ _ _ _ _ _ _ => d
  | _ => None
  end.

(** The pricer after the assignments of [initialize] that precede the date
    check, and after all of them. *)
Definition afterDates (cf : EquityCashFlow) (p : EquityQuantoCashFlowPricer)
    : EquityQuantoCashFlowPricer :=
  EquityQuantoCashFlowPricer.set_fixingDate_ (fixingDate (base cf))
    (EquityQuantoCashFlowPricer.set_baseDate_ (baseDate (base cf))
       (EquityQuantoCashFlowPricer.set_index_ (index (base cf)) p)).

Definition afterInitialize (cf : EquityCashFlow) (p : EquityQuantoCashFlowPricer)
    : EquityQuantoCashFlowPricer :=
  EquityQuantoCashFlowPricer.set_growthOnlyPayoff_ (growthOnly (base cf))
    (afterDates cf p).

(** Steps 3 and 4 of [initialize] in the words of the spec: all four
    market-data handles non-empty, else fail naming the first missing one;
    then one common reference date, else fail with the consistency error. *)
Definition marketDataChecks (mkt : Market) (p : EquityQuantoCashFlowPricer)
    : outcome unit :=
  match quantoCurrencyTermStructure_ p, equityVolatility_ p,
        fxVolatility_ p, correlation_ p with
  | None, _, _, _ =>
      Throws "Quanto currency term structure handle cannot be empty."
  | Some _, None, _, _ =>
      Throws "Equity volatility term structure handle cannot be empty."
  | Some _, Some _, None, _ =>
      Throws "FX volatility term structure handle cannot be empty."
  | Some _, Some _, Some _, None =>
      Throws "Correlation handle cannot be empty."
  | Some q, Some ev, Some fv, Some _ =>
      if (yieldReferenceDate mkt q =? volReferenceDate mkt ev)
         && (volReferenceDate mkt ev =? volReferenceDate mkt fv)
      then Returns tt
      else Throws "Quanto currency term structure, equity and FX volatility need to have the same reference date."
  end.

(** A cash flow whose cache, when marked valid, holds what a recomputation
    would give. *)
Definition cacheCoherent (mkt : Market) (c : EquityCashFlow) : Prop :=
  calculated_ (base c) = true ->
  IndexedCashFlow.performCalculations
    (IndexedCashFlow.baseFixing (fixing mkt) (base c))
    (IndexedCashFlow.indexFixing (fixing mkt) (base c)) (base c)
  = Returns (amount_ (base c)).

(** [amount()] through a pricer: initialize on this cash flow, then the
    notional times the price. *)
Definition pricedAmount {P} `{EquityCashFlowPricer P}
    (c : EquityCashFlow) (p : P) : outcome R :=
  match initialize c p with
  | (Returns _, p') => x ← price p'; mret (notional (base c) * x)%R
  | (Throws m, _) => Throws m
  end.

(* ===================================================================== *)
(** ** Test fixtures *)
(* ===================================================================== *)

Module Fixtures.

(** A date as [isBusinessDay] sees it. *)
Record CivilDate := {
  cd_weekday : TARGET.Weekday;
  cd_dayOfMonth : TARGET.Day;
  cd_dayOfYear : TARGET.Day;
  cd_month : TARGET.Month;
  cd_year : TARGET.Year
}.

(** Easter Monday as day of the year, for the years used below
    (5 April 1999, 24 April 2000, 1 April 2024). *)
Definition easterMonday (y : TARGET.Year) : TARGET.Day :=
  if y =? 1999 then 95
  else if y =? 2000 then 115
  else if y =? 2024 then 92
  else 0.

Definition isBusinessDay : CivilDate -> bool :=
  TARGET.isBusinessDay cd_weekday cd_dayOfMonth cd_dayOfYear cd_month cd_year
    easterMonday.

Definition goodFriday2024 : CivilDate :=
  {| cd_weekday := TARGET.Friday; cd_dayOfMonth := 29; cd_dayOfYear := 89;
     cd_month := TARGET.March; cd_year := 2024 |}.

Definition easterMonday2024 : CivilDate :=
  {| cd_weekday := TARGET.Monday; cd_dayOfMonth := 1; cd_dayOfYear := 92;
     cd_month := TARGET.April; cd_year := 2024 |}.

Definition easterTuesday2024 : CivilDate :=
  {| cd_weekday := TARGET.Tuesday; cd_dayOfMonth := 2; cd_dayOfYear := 93;
     cd_month := TARGET.April; cd_year := 2024 |}.

Definition easterMonday1999 : CivilDate :=
  {| cd_weekday := TARGET.Monday; cd_dayOfMonth := 5; cd_dayOfYear := 95;
     cd_month := TARGET.April; cd_year := 1999 |}.

Definition newYearsEve1999 : CivilDate :=
  {| cd_weekday := TARGET.Friday; cd_dayOfMonth := 31; cd_dayOfYear := 365;
     cd_month := TARGET.December; cd_year := 1999 |}.

Definition newYearsEve2002 : CivilDate :=
  {| cd_weekday := TARGET.Tuesday; cd_dayOfMonth := 31; cd_dayOfYear := 365;
     cd_month := TARGET.December; cd_year := 2002 |}.

(** Market data for the equity cash flows: index fixings 100 up to the base
    date and 110 after it, and one common reference date. *)
Definition eur : YieldTermStructure := MarketCurve "EUR" Actual360.
Definition jpy : YieldTermStructure := MarketCurve "JPY" Actual360.
Definition equityVol : BlackVolTermStructure := BlackVol "SX5E".
Definition fxVol : BlackVolTermStructure := BlackVol "EURJPY".

Definition market : Market :=
  {| fixing := fun _ d => if d <=? 45000 then Returns 100%R else Returns 110%R;
     yieldReferenceDate := fun _ => 44990;
     volReferenceDate := fun _ => 44990 |}.

Definition sx5e : EquityIndex :=
  {| indexName := "SX5E";
     equityInterestRateCurve := Some eur;
     equityDividendCurve := None;
     spot := Some (SimpleQuote 100%R) |}.

(** An index with no curve at all. *)
Definition bareIndex : EquityIndex :=
  {| indexName := "BARE";
     equityInterestRateCurve := None;
     equityDividendCurve := None;
     spot := None |}.

Definition pricer : EquityQuantoCashFlowPricer :=
  {| quantoCurrencyTermStructure_ := Some jpy;
     equityVolatility_ := Some equityVol;
     fxVolatility_ := Some fxVol;
     correlation_ := Some (SimpleQuote 0.3%R);
     index_ := None;
     baseDate_ := 0;
     fixingDate_ := 0;
     growthOnlyPayoff_ := false |}.

(** The same pricer once its quanto-currency curve handle has been emptied. *)
Definition pricerWithoutCurve : EquityQuantoCashFlowPricer :=
  {| quantoCurrencyTermStructure_ := None;
     equityVolatility_ := Some equityVol;
     fxVolatility_ := Some fxVol;
     correlation_ := Some (SimpleQuote 0.3%R);
     index_ := None;
     baseDate_ := 0;
     fixingDate_ := 0;
     growthOnlyPayoff_ := false |}.

Definition cashFlow : EquityCashFlow :=
  EquityCashFlow.new 1%positive 2%R (Some sx5e) 45000 45365 45367 false.

Definition backwardsCashFlow : EquityCashFlow :=
  EquityCashFlow.new 1%positive 2%R (Some bareIndex) 45365 45000 45367 false.

Definition nullIndexCashFlow : EquityCashFlow :=
  EquityCashFlow.new 1%positive 2%R None 45365 45000 45367 false.

Definition world (p : EquityQuantoCashFlowPricer)
    : World EquityQuantoCashFlowPricer :=
  {| pricers := fun _ => p; observersOf := fun _ => ∅; notifications := [] |}.

(** A zero-inflation setting with the lag counted in days, an index known by
    its name, and published fixings 100 up to serial 44910 and 103 after. *)
Definition minusDays (d : Date) (lag : Z) : Date := d - lag.

Definition cpiFixing (i : string) (d : Date) : outcome R :=
  if d <=? 44910 then Returns 100%R else Returns 103%R.

Definition cpiLaggedFixing (i : option string) (d : Date) (lag : Z)
    (interpolation : unit) : outcome R :=
  match i with
  | Some name => cpiFixing name (minusDays d lag)
  | None => Throws "null pointer dereferenced"
  end.

Definition inflationCashFlow : ZeroInflationCashFlow string Z unit :=
  ZeroInflationCashFlow.new minusDays 1000%R (Some "CPI"%string) tt
    45000 45365 90 45367 true.

End Fixtures.

(* ===================================================================== *)
(** ** Legs of cash flows (setCouponPricer) *)
(* ===================================================================== *)

(** The object behind a [shared_ptr<CashFlow>]: an [EquityCashFlow], or a
    cash flow of another class, of which nothing but its not being an
    [EquityCashFlow] matters here. *)
Inductive CashFlow :=
| IsEquityCashFlow (c : EquityCashFlow)
| OtherCashFlow (otherAmount : R).

(** Cash flows are shared through pointers; a [Leg] is a vector of them. *)
Definition CashFlowId := positive.
Definition Leg := list (option CashFlowId).

Module Leg.

(** The cash flows behind their pointers. *)
Abbreviation Store := (CashFlowId -> CashFlow).

Section Methods.
Context {P : Type}.

Definition State : Type := Store * World P.

(** [ext::dynamic_pointer_cast<EquityCashFlow>(i)]: the same pointer when
    it is not null and its object is an [EquityCashFlow], else null. *)
Definition dynamic_pointer_cast (s : Store) (i : option CashFlowId)
    : option (CashFlowId * EquityCashFlow) :=
  match i with
  | Some a =>
      match s a with
      | IsEquityCashFlow c => Some (a, c)
      | OtherCashFlow _ => None
      end
  | None => None
  end.

(** [c->setPricer(p)] on the object behind [a]. *)
Definition setPricerAt (a : CashFlowId) (c : EquityCashFlow)
    (p : option PricerId) : method State unit := fun '(s, w) =>
  let '(r, (c', w')) := EquityCashFlow.setPricer p (c, w) in
  (r, (<[a := IsEquityCashFlow c']> s, w')).

(** [setCouponPricer(leg, p)]. *)
Fixpoint setCouponPricer (leg : Leg) (p : option PricerId)
    : method State unit :=
  match leg with
  | [] => mret tt
  | i :: rest =>
      '(s, _) ← get;
      match dynamic_pointer_cast s i with
      | Some (a, c) => setPricerAt a c p
      | None => mret tt
      end;;
      setCouponPricer rest p
  end.
End Methods.
End Leg.

(* ===================================================================== *)
(** ** Further vocabulary and fixtures *)
(* ===================================================================== *)

(** The four market-data handles of a pricer. *)
Definition handles (p : EquityQuantoCashFlowPricer)
    : Handle YieldTermStructure * Handle BlackVolTermStructure
      * Handle BlackVolTermStructure * Handle Quote :=
  (quantoCurrencyTermStructure_ p, equityVolatility_ p, fxVolatility_ p,
   correlation_ p).

(** The same cash flow with another growth-only flag. *)
Definition withGrowthOnly (g : bool) (c : EquityCashFlow) : EquityCashFlow :=
  {| self := self c;
     base := {| notional := notional (base c); index := index (base c);
                baseDate := baseDate (base c);
                fixingDate := fixingDate (base c);
                paymentDate := paymentDate (base c);
                growthOnly := g;
                calculated_ := calculated_ (base c);
                amount_ := amount_ (base c);
                observers_ := observers_ (base c) |};
     pricer_ := pricer_ c |}.

(** A cash flow observes its pricer and no other. *)
Definition observesItsPricer {P} (c : EquityCashFlow) (w : World P) : Prop :=
  forall q, self c ∈ observersOf w q <-> pricer_ c = Some q.

Module MoreFixtures.

(** A market in which the index has no fixing after the base date. *)
Definition marketWithoutFixing : Market :=
  {| fixing := fun _ d =>
       if d <=? 45000 then Returns 100%R else Throws "Missing SX5E fixing";
     yieldReferenceDate := fun _ => 44990;
     volReferenceDate := fun _ => 44990 |}.

(** A cash flow that fixes on its base date. *)
Definition sameDayCashFlow : EquityCashFlow :=
  EquityCashFlow.new 1%positive 2%R (Some Fixtures.sx5e) 45000 45000 45367 true.

(** A growth-only pricer state left over from another cash flow. *)
Definition usedPricer : EquityQuantoCashFlowPricer :=
  {| quantoCurrencyTermStructure_ := Some Fixtures.jpy;
     equityVolatility_ := Some Fixtures.equityVol;
     fxVolatility_ := Some Fixtures.fxVol;
     correlation_ := Some (SimpleQuote 0.3%R);
     index_ := Some Fixtures.bareIndex;
     baseDate_ := 1;
     fixingDate_ := 2;
     growthOnlyPayoff_ := true |}.

(** A leg of three pointers: an equity cash flow, a null pointer and a cash
    flow of another class; a second equity cash flow is not in the leg. *)
Definition store : CashFlowId -> CashFlow := fun a =>
  if (a =? 1)%positive then IsEquityCashFlow Fixtures.cashFlow
  else if (a =? 2)%positive then OtherCashFlow 5%R
  else IsEquityCashFlow
         (EquityCashFlow.new 3%positive 1%R (Some Fixtures.sx5e)
            45000 45365 45367 true).

Definition leg : Leg := [Some 1%positive; None; Some 2%positive].

End MoreFixtures.

(* ===================================================================== *)
(** ** The state after setPricer, written out *)
(* ===================================================================== *)

(** The cash flow after [setPricer(p)]: the new pricer, and the base object
    as [update()] leaves it. *)
Definition cashFlowAfterSetPricer (p : option PricerId) (c : EquityCashFlow)
    : EquityCashFlow :=
  {| self := self c;
     base := fst (IndexedCashFlow.update (base c));
     pricer_ := p |}.

(** The observers of the pricers after [setPricer(p)] on cash flow [c]. *)
Definition observersAfterSetPricer {P} (p : option PricerId)
    (c : EquityCashFlow) (w : World P) : PricerId -> gset ObserverId :=
  let unregistered : PricerId -> gset ObserverId :=
    match pricer_ c with
    | Some old => <[old := observersOf w old ∖ {[self c]}]> (observersOf w)
    | None => observersOf w
    end in
  match p with
  | Some q => <[q := {[self c]} ∪ unregistered q]> unregistered
  | None => unregistered
  end.

Definition worldAfterSetPricer {P} (p : option PricerId)
    (c : EquityCashFlow) (w : World P) : World P :=
  {| pricers := pricers w;
     observersOf := observersAfterSetPricer p c w;
     notifications :=
       notifications w ++ snd (IndexedCashFlow.update (base c)) |}.

(* ===================================================================== *)
(** ** amount() over any base class, and the arithmetic of the code *)
(* ===================================================================== *)

Module EquityCashFlowOverBase.
Section Methods.
Context {P : Type} `{EquityCashFlowPricer P}.

(** [IndexedCashFlow::amount()], the base-class call of
    equitycashflow.cpp:81, whatever it does. *)
Variable baseClassAmount : method (EquityCashFlow * World P) R.

(** [EquityCashFlow::amount] (equitycashflow.cpp:78-84) over that base
    class. *)
Definition amount : method (EquityCashFlow * World P) R :=
  '(c, _) ← get;
  match pricer_ c with
  | None => baseClassAmount
  | Some pid =>
      EquityCashFlow.onPricer pid (initialize c);;
      x ← EquityCashFlow.onPricer pid (fun p => (price p, p));
      mret (notional (base c) * x)%R
  end.
End Methods.
End EquityCashFlowOverBase.

(** What [price()] returns right after [initialize(c)]. *)
Definition pricedRatio {P} `{EquityCashFlowPricer P}
    (c : EquityCashFlow) (p : P) : outcome R :=
  match initialize c p with
  | (Returns _, p') => price p'
  | (Throws m, _) => Throws m
  end.

(** The two arithmetic expressions of the code on IEEE 754 binary64, the
    arithmetic of a C++ [double]. *)
Module Binary64.
Import PrimFloat.

(** [growthOnly ? I1 / I0 - 1.0 : I1 / I0] (equitycashflow.cpp:153-155). *)
Definition ratio (growthOnly : bool) (I0 I1 : float) : float :=
  if growthOnly then (I1 / I0 - 1)%float else (I1 / I0)%float.

(** [notional() * x] (equitycashflow.cpp:83). *)
Definition times (notional x : float) : float := (notional * x)%float.

End Binary64.

(* ===================================================================== *)
(** ** Running a member function in proofs *)
(* ===================================================================== *)

Ltac run_method :=
  cbv [mbind method_bind mret method_ret get modify lift require
       QL_REQUIRE QL_FAIL outcome_bind outcome_ret];
  cbn [fst snd].

(* ===================================================================== *)
(** * Properties *)
(* ===================================================================== *)

(** ** TARGET calendar *)

Lemma Month_eqb_eq a b : TARGET.Month_eqb a b = true <-> a = b.
Proof. destruct a, b; simpl; split; congruence. Qed.

Lemma isWeekend_iff w :
  TARGET.isWeekend w = true <-> w = TARGET.Saturday \/ w = TARGET.Sunday.
Proof. destruct w; simpl; intuition congruence. Qed.

Section TARGET_properties.
Context {Date : Type}.
Variable weekday : Date -> TARGET.Weekday.
Variable dayOfMonth : Date -> TARGET.Day.
Variable dayOfYear : Date -> TARGET.Day.
Variable month : Date -> TARGET.Month.
Variable year : Date -> TARGET.Year.
Variable easterMonday : TARGET.Year -> TARGET.Day.

Local Abbreviation isBusinessDay :=
  (TARGET.isBusinessDay weekday dayOfMonth dayOfYear month year easterMonday).
Local Abbreviation isTargetHoliday :=
  (TARGET.isTargetHoliday dayOfMonth dayOfYear month year easterMonday).

(** C10. [TARGET::Impl::isBusinessDay(date)] is true exactly when the date is
    neither a Saturday nor a Sunday and is none of: January 1; Good Friday
    (Easter Monday minus 3 days) from 2000 on; Easter Monday from 2000 on;
    May 1 from 2000 on; December 25; December 26 from 2000 on; December 31
    in 1998, 1999 or 2001. *)
Theorem isBusinessDay_iff (date : Date) :
  isBusinessDay date = true <->
  ~ TARGET.isSaturdayOrSunday weekday date /\ ~ isTargetHoliday date.
Proof.
  unfold TARGET.isBusinessDay, TARGET.isTargetHoliday, TARGET.isSaturdayOrSunday,
    TARGET.onDayOfMonth, TARGET.isGoodFriday, TARGET.isEasterMonday, TARGET.since2000.
  cbv zeta.
  match goal with |- (if ?b then false else true) = true <-> _ =>
    assert (E : (if b then false else true) = true <-> ~ (b = true))
      by (destruct b; intuition congruence);
    rewrite E; clear E
  end.
  rewrite !orb_true_iff, !andb_true_iff, !orb_true_iff, isWeekend_iff,
    !Month_eqb_eq, !Z.eqb_eq, !Z.geb_le.
  tauto.
Qed.

End TARGET_properties.

Example target_good_friday_2024 :
  Fixtures.isBusinessDay Fixtures.goodFriday2024 = false.
Proof. reflexivity. Qed.

Example target_easter_monday_2024 :
  Fixtures.isBusinessDay Fixtures.easterMonday2024 = false.
Proof. reflexivity. Qed.

Example target_easter_tuesday_2024 :
  Fixtures.isBusinessDay Fixtures.easterTuesday2024 = true.
Proof. reflexivity. Qed.

Example target_easter_monday_1999 :
  Fixtures.isBusinessDay Fixtures.easterMonday1999 = true.
Proof. reflexivity. Qed.

Example target_new_years_eve_1999 :
  Fixtures.isBusinessDay Fixtures.newYearsEve1999 = false.
Proof. reflexivity. Qed.

Example target_new_years_eve_2002 :
  Fixtures.isBusinessDay Fixtures.newYearsEve2002 = true.
Proof. reflexivity. Qed.

(** ** EquityQuantoCashFlowPricer::initialize *)

Section Quanto_initialize.
Variable mkt : Market.
Import EquityQuantoCashFlowPricer.

Lemma initialize_null_index cf p :
  index (base cf) = None ->
  initialize mkt cf p = (Throws "Equity index required.", set_index_ None p).
Proof.
  intros E. unfold initialize. run_method. cbn. rewrite E. reflexivity.
Qed.

Lemma initialize_backwards cf p i :
  index (base cf) = Some i ->
  fixingDate (base cf) < baseDate (base cf) ->
  initialize mkt cf p =
    (Throws "Fixing date cannot fall before base date.", afterDates cf p).
Proof.
  intros E L. unfold initialize, afterDates. run_method. cbn. rewrite E. cbn.
  destruct (Z.geb_spec (fixingDate (base cf)) (baseDate (base cf))); [lia|].
  reflexivity.
Qed.

Lemma initialize_forward cf p i :
  index (base cf) = Some i ->
  baseDate (base cf) <= fixingDate (base cf) ->
  initialize mkt cf p = (marketDataChecks mkt p, afterInitialize cf p).
Proof.
  intros E L.
  unfold initialize, afterInitialize, afterDates, marketDataChecks.
  run_method. cbn. rewrite E. cbn.
  destruct (Z.geb_spec (fixingDate (base cf)) (baseDate (base cf))); [|lia].
  destruct (quantoCurrencyTermStructure_ p); cbn; [|reflexivity].
  destruct (equityVolatility_ p); cbn; [|reflexivity].
  destruct (fxVolatility_ p); cbn; [|reflexivity].
  destruct (correlation_ p); cbn; [|reflexivity].
  destruct (_ && _); reflexivity.
Qed.

(** What a successful [initialize] establishes. *)
Lemma initialize_Returns_inv cf p p' :
  initialize mkt cf p = (Returns tt, p') ->
  exists i quanto equityVol fxVol rho,
    index (base cf) = Some i /\
    baseDate (base cf) <= fixingDate (base cf) /\
    quantoCurrencyTermStructure_ p = Some quanto /\
    equityVolatility_ p = Some equityVol /\
    fxVolatility_ p = Some fxVol /\
    correlation_ p = Some rho /\
    yieldReferenceDate mkt quanto = volReferenceDate mkt equityVol /\
    volReferenceDate mkt equityVol = volReferenceDate mkt fxVol /\
    p' = afterInitialize cf p.
Proof.
  intros H.
  destruct (index (base cf)) as [i|] eqn:E.
  2: { rewrite (initialize_null_index _ _ E) in H. discriminate. }
  destruct (Z_lt_le_dec (fixingDate (base cf)) (baseDate (base cf))) as [L|L].
  { rewrite (initialize_backwards _ _ _ E L) in H. discriminate. }
  rewrite (initialize_forward _ _ _ E L) in H.
  injection H as H <-.
  unfold marketDataChecks in H.
  destruct (quantoCurrencyTermStructure_ p) as [q|]; [|discriminate].
  destruct (equityVolatility_ p) as [ev|]; [|discriminate].
  destruct (fxVolatility_ p) as [fv|]; [|discriminate].
  destruct (correlation_ p) as [rho|]; [|discriminate].
  destruct (_ && _) eqn:B; [|discriminate].
  apply andb_true_iff in B as [B1 B2].
  apply Z.eqb_eq in B1, B2.
  exists i, q, ev, fv, rho. repeat split; auto.
Qed.

(** C1. After a successful [initialize(cashFlow)], [price()] takes
    strike = index.fixing(fixingDate), builds the quanto-adjusted curve from
    the (configured) dividend curve, the quanto-currency curve, the index's
    own interest-rate curve, the equity volatility at the strike, the FX
    volatility and the correlation value, values the clone of the index that
    has the quanto-currency curve as interest-rate curve, the adjusted curve
    as dividend curve and the same spot, and returns I1/I0 - 1 for a
    growth-only cash flow and I1/I0 otherwise, with I0 and I1 the clone's
    fixings at the base date and at the fixing date. *)
Theorem price_after_initialize cf p p' :
  initialize mkt cf p = (Returns tt, p') ->
  exists i quanto equityVol fxVol rho,
    index (base cf) = Some i /\
    quantoCurrencyTermStructure_ p = Some quanto /\
    equityVolatility_ p = Some equityVol /\
    fxVolatility_ p = Some fxVol /\
    correlation_ p = Some rho /\
    price mkt p' =
      (strike ← fixing mkt i (fixingDate (base cf));
       let adjusted :=
         QuantoTermStructure (configureDividendHandle (equityDividendCurve i))
           (Some quanto) (equityInterestRateCurve i) (Some equityVol) strike
           (Some fxVol) 1%R (value rho) in
       let quantoIndex :=
         {| indexName := indexName i;
            equityInterestRateCurve := Some quanto;
            equityDividendCurve := Some adjusted;
            spot := spot i |} in
       I0 ← fixing mkt quantoIndex (baseDate (base cf));
       I1 ← fixing mkt quantoIndex (fixingDate (base cf));
       mret (if growthOnly (base cf) then I1 / I0 - 1 else I1 / I0)%R).
Proof.
  intros H.
  apply initialize_Returns_inv in H
    as (i & q & ev & fv & rho & Ei & _ & Eq & Eev & Efv & Erho & _ & _ & ->).
  exists i, q, ev, fv, rho. repeat (split; [assumption|]).
  unfold price, quantoTermStructure, clone, afterInitialize, afterDates.
  cbn. rewrite Ei, Eq, Eev, Efv, Erho. cbn.
  destruct (fixing mkt i (fixingDate (base cf))) as [strike|m]; cbn; [|reflexivity].
  destruct (fixing mkt _ (baseDate (base cf))) as [I0|m]; cbn; [|reflexivity].
  destruct (fixing mkt _ (fixingDate (base cf))) as [I1|m]; cbn; [|reflexivity].
  destruct (growthOnly (base cf)); reflexivity.
Qed.

End Quanto_initialize.

Lemma price_after_initialize_witness :
  EquityQuantoCashFlowPricer.initialize Fixtures.market Fixtures.cashFlow Fixtures.pricer
    = (Returns tt, afterInitialize Fixtures.cashFlow Fixtures.pricer)
  /\ EquityQuantoCashFlowPricer.price Fixtures.market
       (afterInitialize Fixtures.cashFlow Fixtures.pricer) = Returns (110 / 100)%R.
Proof.
  assert (E : EquityQuantoCashFlowPricer.initialize Fixtures.market Fixtures.cashFlow Fixtures.pricer
    = (Returns tt, afterInitialize Fixtures.cashFlow Fixtures.pricer)) by reflexivity.
  split; [exact E|].
  destruct (price_after_initialize _ _ _ _ E)
    as (i & q & ev & fv & rho & Ei & _ & _ & _ & _ & ->).
  reflexivity.
Defined.

(** ** EquityCashFlow::amount and setPricer *)

Section EquityCashFlow_properties.
Context {P : Type} `{EquityCashFlowPricer P}.
Variable mkt : Market.
Import EquityCashFlow.

Lemma baseAmount_fst (c : EquityCashFlow) (w : World P) :
  cacheCoherent mkt c ->
  fst (baseAmount mkt (c, w)) =
    IndexedCashFlow.performCalculations
      (IndexedCashFlow.baseFixing (fixing mkt) (base c))
      (IndexedCashFlow.indexFixing (fixing mkt) (base c)) (base c).
Proof.
  intros Hc. unfold baseAmount, IndexedCashFlow.amount.
  destruct (calculated_ (base c)) eqn:E.
  - cbn. symmetry. apply Hc. exact E.
  - destruct (IndexedCashFlow.performCalculations _ _ _); reflexivity.
Qed.

Lemma performCalculations_eq (c : EquityCashFlow) :
  IndexedCashFlow.performCalculations
    (IndexedCashFlow.baseFixing (fixing mkt) (base c))
    (IndexedCashFlow.indexFixing (fixing mkt) (base c)) (base c)
  = (i ← pointee (index (base c));
     I0 ← fixing mkt i (baseDate (base c));
     I1 ← fixing mkt i (fixingDate (base c));
     mret (notional (base c) *
           (if growthOnly (base c) then I1 / I0 - 1 else I1 / I0))%R).
Proof.
  unfold IndexedCashFlow.performCalculations, IndexedCashFlow.baseFixing,
    IndexedCashFlow.indexFixing, IndexedCashFlow.ratio.
  destruct (index (base c)) as [i|]; cbn; [|reflexivity].
  destruct (fixing mkt i (baseDate (base c))); cbn; [|reflexivity].
  destruct (fixing mkt i (fixingDate (base c))); cbn; reflexivity.
Qed.

Lemma amount_without_pricer (c : EquityCashFlow) (w : World P) :
  pricer_ c = None -> amount mkt (c, w) = baseAmount mkt (c, w).
Proof.
  intros E. unfold amount. run_method. rewrite E. reflexivity.
Qed.

Lemma amount_with_pricer (c : EquityCashFlow) (w : World P) pid :
  pricer_ c = Some pid ->
  fst (amount mkt (c, w)) = pricedAmount c (pricers w pid).
Proof.
  intros E. unfold amount, pricedAmount, onPricer. run_method. rewrite E.
  destruct (initialize c (pricers w pid)) as [[[]|m] p']; cbn; [|reflexivity].
  rewrite fn_lookup_insert.
  destruct (price p'); reflexivity.
Qed.

Lemma amount_over_base (c : EquityCashFlow) (w : World P) :
  amount mkt (c, w) = EquityCashFlowOverBase.amount (baseAmount mkt) (c, w).
Proof. reflexivity. Qed.

Lemma amount_over_any_base (B : method (EquityCashFlow * World P) R)
    (c : EquityCashFlow) (w : World P) :
  pricer_ c = None -> EquityCashFlowOverBase.amount B (c, w) = B (c, w).
Proof.
  intros E. unfold EquityCashFlowOverBase.amount. run_method. rewrite E.
  reflexivity.
Qed.

(** C2 (amended). Without a pricer, [amount()] is the call of the base-class
    amount and nothing else, whatever the base class does. With the
    base-class amount of this development that is the notional times the
    plain index ratio, notional * (growthOnly ? I1/I0 - 1 : I1/I0), and with
    I(base)=100 and I(fixing)=110 it is notional * (110/100), or
    notional * (110/100 - 1) when growth-only, as the code evaluates them.
    With a pricer, [amount()] calls [pricer.initialize(self)] and returns
    notional * [pricer.price()]. *)
Theorem amount_cases (c : EquityCashFlow) (w : World P) :
  cacheCoherent mkt c ->
  (pricer_ c = None ->
     (forall B : method (EquityCashFlow * World P) R,
        EquityCashFlowOverBase.amount B (c, w) = B (c, w))
     /\ amount mkt (c, w) = baseAmount mkt (c, w)
     /\ fst (amount mkt (c, w)) =
       (i ← pointee (index (base c));
        I0 ← fixing mkt i (baseDate (base c));
        I1 ← fixing mkt i (fixingDate (base c));
        mret (notional (base c) *
              (if growthOnly (base c) then I1 / I0 - 1 else I1 / I0))%R)
     /\ (forall i, index (base c) = Some i ->
           fixing mkt i (baseDate (base c)) = Returns 100%R ->
           fixing mkt i (fixingDate (base c)) = Returns 110%R ->
           fst (amount mkt (c, w)) =
             Returns (notional (base c) *
                      (if growthOnly (base c)
                       then 110 / 100 - 1 else 110 / 100))%R))
  /\ (forall pid, pricer_ c = Some pid ->
        fst (amount mkt (c, w)) =
          match initialize c (pricers w pid) with
          | (Returns _, p') => x ← price p'; mret (notional (base c) * x)%R
          | (Throws m, _) => Throws m
          end).
Proof.
  intros Hc. split.
  - intros E.
    assert (A : fst (amount mkt (c, w)) =
       (i ← pointee (index (base c));
        I0 ← fixing mkt i (baseDate (base c));
        I1 ← fixing mkt i (fixingDate (base c));
        mret (notional (base c) *
              (if growthOnly (base c) then I1 / I0 - 1 else I1 / I0))%R)).
    { rewrite (amount_without_pricer _ _ E), (baseAmount_fst _ _ Hc).
      apply performCalculations_eq. }
    split; [intros B; apply (amount_over_any_base B c w E)|].
    split; [apply (amount_without_pricer _ _ E)|].
    split; [exact A|].
    intros i Ei E0 E1. rewrite A, Ei. cbn. rewrite E0. cbn. rewrite E1. cbn.
    destruct (growthOnly (base c)); reflexivity.
  - intros pid E. apply (amount_with_pricer _ _ _ E).
Qed.

End EquityCashFlow_properties.

Section EquityCashFlow_setPricer.
Context {P : Type} `{EquityCashFlowPricer P}.
Variable mkt : Market.
Import EquityCashFlow.

(** The cash flow and the world after [setPricer(pricer)]. *)
Lemma setPricer_eq (pricer : option PricerId) (c : EquityCashFlow) (w : World P) :
  let stale := fst (IndexedCashFlow.update (base c)) in
  let told := snd (IndexedCashFlow.update (base c)) in
  let unregistered : PricerId -> gset ObserverId :=
    match pricer_ c with
    | Some old => <[old := observersOf w old ∖ {[self c]}]> (observersOf w)
    | None => observersOf w
    end in
  let registered : PricerId -> gset ObserverId :=
    match pricer with
    | Some p => <[p := {[self c]} ∪ unregistered p]> unregistered
    | None => unregistered
    end in
  setPricer pricer (c, w) =
    (Returns tt,
     ({| self := self c; base := stale; pricer_ := pricer |},
      {| pricers := pricers w; observersOf := registered;
         notifications := notifications w ++ told |})).
Proof.
  unfold setPricer, registerWith, unregisterWith, update, set_pricer_,
    set_observersOf, set_base.
  run_method.
  destruct (pricer_ c) as [old|], pricer as [p|]; cbn; try reflexivity.
  all: destruct w; reflexivity.
Qed.

(** C7. [setPricer(p)] removes the cash flow from the observers of the
    pricer it had, stores [p], adds the cash flow to the observers of [p],
    and marks the cash flow stale through the same [update()] that a
    notification triggers, so that the next [amount()] is a recomputation
    and not the cached amount. *)
Theorem setPricer_effect (pricer : option PricerId) (c : EquityCashFlow) (w : World P) :
  exists c' w',
    setPricer pricer (c, w) = (Returns tt, (c', w')) /\
    (forall old, pricer_ c = Some old -> pricer <> Some old ->
       self c ∉ observersOf w' old) /\
    pricer_ c' = pricer /\
    (forall p, pricer = Some p -> self c ∈ observersOf w' p) /\
    (forall q, pricer_ c <> Some q -> pricer <> Some q ->
       observersOf w' q = observersOf w q) /\
    pricers w' = pricers w /\
    self c' = self c /\
    base c' = fst (IndexedCashFlow.update (base c)) /\
    notifications w' = notifications w ++ snd (IndexedCashFlow.update (base c)) /\
    calculated_ (base c') = false /\
    fst (amount mkt (c', w')) =
      match pricer with
      | None =>
          IndexedCashFlow.performCalculations
            (IndexedCashFlow.baseFixing (fixing mkt) (base c))
            (IndexedCashFlow.indexFixing (fixing mkt) (base c)) (base c)
      | Some pid => pricedAmount c' (pricers w pid)
      end.
Proof.
  eexists _, _. split; [apply setPricer_eq|]. cbn.
  split.
  { intros old E N. rewrite E.
    destruct pricer as [p|].
    - rewrite fn_lookup_insert_ne by congruence.
      rewrite fn_lookup_insert. apply not_elem_of_difference.
      right. apply elem_of_singleton. reflexivity.
    - rewrite fn_lookup_insert. apply not_elem_of_difference.
      right. apply elem_of_singleton. reflexivity. }
  split; [reflexivity|].
  split.
  { intros p ->. rewrite fn_lookup_insert. apply elem_of_union.
    left. apply elem_of_singleton. reflexivity. }
  split.
  { intros q N1 N2.
    destruct pricer as [p|].
    - rewrite fn_lookup_insert_ne by congruence.
      destruct (pricer_ c) as [old|]; [|reflexivity].
      rewrite fn_lookup_insert_ne by congruence. reflexivity.
    - destruct (pricer_ c) as [old|]; [|reflexivity].
      rewrite fn_lookup_insert_ne by congruence. reflexivity. }
  repeat (split; [reflexivity|]).
  destruct pricer as [pid|].
  - rewrite (amount_with_pricer mkt _ _ pid) by reflexivity. reflexivity.
  - rewrite amount_without_pricer by reflexivity.
    unfold baseAmount, IndexedCashFlow.amount. cbn.
    match goal with |- fst (let '(_, _) := match ?x with _ => _ end in _) = ?y =>
      change y with x; destruct x end; reflexivity.
Qed.

(** The cache stays coherent along the operations of the cash flow. *)
Lemma cacheCoherent_new self notional index baseDate fixingDate paymentDate growthOnly :
  cacheCoherent mkt
    (new self notional index baseDate fixingDate paymentDate growthOnly).
Proof. unfold cacheCoherent. cbn. discriminate. Qed.

Lemma cacheCoherent_setPricer pricer (c : EquityCashFlow) (w : World P) :
  cacheCoherent mkt (fst (snd (setPricer pricer (c, w)))).
Proof. rewrite setPricer_eq. unfold cacheCoherent. cbn. discriminate. Qed.

Lemma cacheCoherent_amount (c : EquityCashFlow) (w : World P) :
  cacheCoherent mkt c ->
  cacheCoherent mkt (fst (snd (amount mkt (c, w)))).
Proof.
  intros Hc. unfold amount. run_method.
  destruct (pricer_ c) as [pid|].
  - unfold onPricer.
    destruct (initialize c (pricers w pid)) as [[[]|m] p']; cbn; [|exact Hc].
    destruct (price _); exact Hc.
  - unfold baseAmount, IndexedCashFlow.amount.
    destruct (calculated_ (base c)) eqn:E; cbn; [exact Hc|].
    destruct (IndexedCashFlow.performCalculations _ _ _) as [a|m] eqn:Ea; cbn;
      [|exact Hc].
    intros _. cbn. exact Ea.
Qed.

End EquityCashFlow_setPricer.

(** ** The quanto pricer behind a cash flow *)

Section Quanto_errors.
Variable mkt : Market.
Import EquityQuantoCashFlowPricer.

Local Abbreviation amount :=
  (EquityCashFlow.amount (H := quantoPricer mkt) mkt).

(** A failing [initialize] is the outcome of [amount()]: [price()] is not
    reached and no cached amount is returned. *)
Lemma amount_initialize_throws (c : EquityCashFlow)
    (w : World EquityQuantoCashFlowPricer) pid m :
  pricer_ c = Some pid ->
  fst (initialize mkt c (pricers w pid)) = Throws m ->
  fst (amount (c, w)) = Throws m.
Proof.
  intros E F.
  rewrite (amount_with_pricer (H := quantoPricer mkt) mkt c w pid E).
  unfold pricedAmount. cbn.
  destruct (initialize mkt c (pricers w pid)) as [r p'].
  cbn in F. rewrite F. reflexivity.
Qed.

(** C4 (amended). For a cash flow on an equity index whose fixing date does
    not precede its base date, [initialize] fails with the message naming the
    first empty handle among quanto-currency curve, equity volatility, FX
    volatility and correlation, and, when all four are linked, with the
    consistency message unless the three term structures share one reference
    date; [amount()] of a cash flow carrying such a pricer fails with that
    same error. *)
Theorem initialize_market_data_errors cf p i :
  index (base cf) = Some i ->
  baseDate (base cf) <= fixingDate (base cf) ->
  (quantoCurrencyTermStructure_ p = None ->
     fst (initialize mkt cf p) =
       Throws "Quanto currency term structure handle cannot be empty.")
  /\ (quantoCurrencyTermStructure_ p <> None -> equityVolatility_ p = None ->
        fst (initialize mkt cf p) =
          Throws "Equity volatility term structure handle cannot be empty.")
  /\ (quantoCurrencyTermStructure_ p <> None -> equityVolatility_ p <> None ->
      fxVolatility_ p = None ->
        fst (initialize mkt cf p) =
          Throws "FX volatility term structure handle cannot be empty.")
  /\ (quantoCurrencyTermStructure_ p <> None -> equityVolatility_ p <> None ->
      fxVolatility_ p <> None -> correlation_ p = None ->
        fst (initialize mkt cf p) = Throws "Correlation handle cannot be empty.")
  /\ (forall quanto equityVol fxVol,
        quantoCurrencyTermStructure_ p = Some quanto ->
        equityVolatility_ p = Some equityVol ->
        fxVolatility_ p = Some fxVol ->
        correlation_ p <> None ->
        ~ (yieldReferenceDate mkt quanto = volReferenceDate mkt equityVol /\
           volReferenceDate mkt equityVol = volReferenceDate mkt fxVol) ->
        fst (initialize mkt cf p) =
          Throws "Quanto currency term structure, equity and FX volatility need to have the same reference date.")
  /\ (forall w pid m,
        pricer_ cf = Some pid -> pricers w pid = p ->
        fst (initialize mkt cf p) = Throws m ->
        fst (amount (cf, w)) = Throws m).
Proof.
  intros Ei L. rewrite (initialize_forward mkt cf p i Ei L). cbn [fst].
  unfold marketDataChecks.
  repeat split.
  - intros ->. reflexivity.
  - intros Nq ->. destruct (quantoCurrencyTermStructure_ p); [reflexivity|congruence].
  - intros Nq Nev ->.
    destruct (quantoCurrencyTermStructure_ p); [|congruence].
    destruct (equityVolatility_ p); [reflexivity|congruence].
  - intros Nq Nev Nfv ->.
    destruct (quantoCurrencyTermStructure_ p); [|congruence].
    destruct (equityVolatility_ p); [|congruence].
    destruct (fxVolatility_ p); [reflexivity|congruence].
  - intros q ev fv -> -> -> Nrho D.
    destruct (correlation_ p); [|congruence].
    destruct (Z.eqb_spec (yieldReferenceDate mkt q) (volReferenceDate mkt ev));
      destruct (Z.eqb_spec (volReferenceDate mkt ev) (volReferenceDate mkt fv));
      cbn; solve [reflexivity | tauto].
  - intros w pid m Ep <- F. apply (amount_initialize_throws cf w pid m Ep).
    rewrite (initialize_forward mkt cf _ i Ei L). exact F.
Qed.

(** C6 (amended). [initialize] rejects every cash flow whose fixing date
    precedes its base date. When the cash flow has an equity index the error
    is the range error, whatever the handles of the pricer and the curves of
    the index; without an equity index the type check fails first. The
    error is raised by [initialize]: [amount()] fails with it before
    [price()] is reached. *)
Theorem initialize_rejects_backwards cf p :
  fixingDate (base cf) < baseDate (base cf) ->
  thrown (fst (initialize mkt cf p))
  /\ (forall i, index (base cf) = Some i ->
        fst (initialize mkt cf p) =
          Throws "Fixing date cannot fall before base date.")
  /\ (index (base cf) = None ->
        fst (initialize mkt cf p) = Throws "Equity index required.")
  /\ (forall w pid,
        pricer_ cf = Some pid -> pricers w pid = p ->
        exists m, fst (initialize mkt cf p) = Throws m /\
                  fst (amount (cf, w)) = Throws m).
Proof.
  intros L.
  assert (A : forall i, index (base cf) = Some i ->
        fst (initialize mkt cf p) =
          Throws "Fixing date cannot fall before base date.").
  { intros i Ei. rewrite (initialize_backwards mkt cf p i Ei L). reflexivity. }
  assert (B : index (base cf) = None ->
        fst (initialize mkt cf p) = Throws "Equity index required.").
  { intros Ei. rewrite (initialize_null_index mkt cf p Ei). reflexivity. }
  assert (T : thrown (fst (initialize mkt cf p))).
  { destruct (index (base cf)) as [i|] eqn:Ei.
    - eexists. apply (A i eq_refl).
    - eexists. apply (B eq_refl). }
  repeat split; try assumption.
  intros w pid Ep <-. destruct T as [m Hm]. exists m. split; [exact Hm|].
  apply (amount_initialize_throws cf w pid m Ep Hm).
Qed.

(** C5 (amended). In [price()], the dividend input of the quanto-adjusted
    curve is never empty: an index without dividend curve gets
    FlatForward(0, NullCalendar, SimpleQuote(0.0), Actual365Fixed), a flat
    zero-yield curve whose day counter is Actual/365 (Fixed) whatever the
    other curves use, and a linked dividend curve is passed on unchanged. *)
Theorem price_dividend_input this i strike rho :
  index_ this = Some i ->
  fixing mkt i (fixingDate_ this) = Returns strike ->
  correlation_ this = Some rho ->
  exists adjusted dividend,
    price mkt this =
      (let quantoIndex :=
         clone i (quantoCurrencyTermStructure_ this) (Some adjusted) (spot i) in
       I0 ← fixing mkt quantoIndex (baseDate_ this);
       I1 ← fixing mkt quantoIndex (fixingDate_ this);
       mret (if growthOnlyPayoff_ this then I1 / I0 - 1 else I1 / I0)%R)
    /\ underlyingDividendTS adjusted = Some dividend
    /\ (equityDividendCurve i = None ->
          dividend =
            FlatForward 0 NullCalendar (Some (SimpleQuote 0%R)) Actual365Fixed
          /\ dayCounter dividend = Some Actual365Fixed)
    /\ (forall d, equityDividendCurve i = Some d -> dividend = d).
Proof.
  intros Ei Es Erho.
  exists (quantoTermStructure this i strike (value rho)).
  destruct (equityDividendCurve i) as [d|] eqn:Ed.
  - exists d. split.
    + unfold price. rewrite Ei. cbn. rewrite Es. clear Es. cbn.
      rewrite Erho. cbn.
      destruct (fixing mkt _ (baseDate_ this)); cbn; [|reflexivity].
      destruct (fixing mkt _ (fixingDate_ this)); cbn; [|reflexivity].
      destruct (growthOnlyPayoff_ this); reflexivity.
    + unfold quantoTermStructure, configureDividendHandle. rewrite Ed. cbn.
      repeat split; congruence.
  - eexists. split.
    + unfold price. rewrite Ei. cbn. rewrite Es. clear Es. cbn.
      rewrite Erho. cbn.
      destruct (fixing mkt _ (baseDate_ this)); cbn; [|reflexivity].
      destruct (fixing mkt _ (fixingDate_ this)); cbn; [|reflexivity].
      destruct (growthOnlyPayoff_ this); reflexivity.
    + unfold quantoTermStructure, configureDividendHandle. rewrite Ed. cbn.
      repeat split; congruence.
Qed.

End Quanto_errors.

(** ** Witnesses and counterexamples on the fixtures *)

(** The values of the end-to-end scenario on binary64. *)
Section Binary64_scenario.
Import PrimFloat.
Local Open Scope float_scope.
Local Set Warnings "-inexact-float".

Lemma binary64_full_ratio :
  Binary64.ratio false 100 110 = 1.10.
Proof. reflexivity. Qed.

Lemma binary64_full_amount (notional : float) :
  Binary64.times notional (Binary64.ratio false 100 110)
  = Binary64.times notional 1.10.
Proof. rewrite binary64_full_ratio. reflexivity. Qed.

Lemma binary64_growth_ratio :
  Binary64.ratio true 100 110 = 0.10000000000000009.
Proof. reflexivity. Qed.

(** C2, as stated, fails in two ways at I(base)=100, I(fixing)=110.

    On a cash flow of notional 2 paying the full ratio, no base-class
    amount whatsoever makes [amount()] both the plain ratio 110/100 and
    notional * 1.10; the two are different doubles as well.

    On a growth-only cash flow the doubles do not agree even at notional 1:
    the plain ratio 110/100 - 1 is 0.10000000000000009 and not
    notional * 0.10, and neither is notional * (110/100 - 1) at
    notional 2. *)
Lemma amount_claim_halves_disagree :
  pricer_ Fixtures.cashFlow = None /\
  notional (base Fixtures.cashFlow) = 2%R /\
  growthOnly (base Fixtures.cashFlow) = false /\
  fixing Fixtures.market Fixtures.sx5e (baseDate (base Fixtures.cashFlow))
    = Returns 100%R /\
  fixing Fixtures.market Fixtures.sx5e (fixingDate (base Fixtures.cashFlow))
    = Returns 110%R /\
  ~ (exists B : method (EquityCashFlow * World EquityQuantoCashFlowPricer) R,
       fst (EquityCashFlowOverBase.amount (H := quantoPricer Fixtures.market) B
              (Fixtures.cashFlow, Fixtures.world Fixtures.pricer))
         = Returns (110 / 100)%R /\
       fst (EquityCashFlowOverBase.amount (H := quantoPricer Fixtures.market) B
              (Fixtures.cashFlow, Fixtures.world Fixtures.pricer))
         = Returns (2 * 1.10)%R) /\
  PrimFloat.eqb (Binary64.ratio false 100 110) (Binary64.times 2 1.10) = false /\
  PrimFloat.eqb (Binary64.ratio true 100 110) (Binary64.times 1 0.10) = false /\
  PrimFloat.eqb (Binary64.times 2 (Binary64.ratio true 100 110))
                (Binary64.times 2 0.10) = false.
Proof.
  repeat (split; [reflexivity|]).
  split; [|repeat split].
  intros (B & E1 & E2). rewrite E1 in E2. injection E2 as E2. lra.
Qed.

End Binary64_scenario.

Lemma amount_cases_witness :
  cacheCoherent Fixtures.market Fixtures.cashFlow /\
  fst (EquityCashFlow.amount (H := quantoPricer Fixtures.market) Fixtures.market
         (Fixtures.cashFlow, Fixtures.world Fixtures.pricer))
    = Returns (2 * (110 / 100))%R.
Proof.
  assert (C : cacheCoherent Fixtures.market Fixtures.cashFlow)
    by (unfold cacheCoherent; cbn; discriminate).
  split; [exact C|].
  exact (proj2 (proj2 (proj2 (proj1 (amount_cases (H := quantoPricer Fixtures.market)
                         Fixtures.market Fixtures.cashFlow
                         (Fixtures.world Fixtures.pricer) C) eq_refl)))
               Fixtures.sx5e eq_refl eq_refl eq_refl).
Defined.

(** C4, as stated, fails on a cash flow whose fixing date precedes its base
    date: with the quanto-currency curve handle empty, [initialize] raises
    the range error, not the error naming the handle. *)
Lemma initialize_empty_handle_backwards :
  quantoCurrencyTermStructure_ Fixtures.pricerWithoutCurve = None /\
  fst (EquityQuantoCashFlowPricer.initialize Fixtures.market
         Fixtures.backwardsCashFlow Fixtures.pricerWithoutCurve)
    = Throws "Fixing date cannot fall before base date." /\
  fst (EquityQuantoCashFlowPricer.initialize Fixtures.market
         Fixtures.backwardsCashFlow Fixtures.pricerWithoutCurve)
    <> Throws "Quanto currency term structure handle cannot be empty.".
Proof.
  repeat split. cbn. discriminate.
Qed.

Lemma initialize_market_data_errors_witness :
  index (base Fixtures.cashFlow) = Some Fixtures.sx5e /\
  baseDate (base Fixtures.cashFlow) <= fixingDate (base Fixtures.cashFlow) /\
  fst (EquityQuantoCashFlowPricer.initialize Fixtures.market
         Fixtures.cashFlow Fixtures.pricerWithoutCurve)
    = Throws "Quanto currency term structure handle cannot be empty.".
Proof.
  assert (L : baseDate (base Fixtures.cashFlow) <= fixingDate (base Fixtures.cashFlow))
    by (cbn; lia).
  split; [reflexivity|]. split; [exact L|].
  exact (proj1 (initialize_market_data_errors Fixtures.market Fixtures.cashFlow
                  Fixtures.pricerWithoutCurve Fixtures.sx5e eq_refl L) eq_refl).
Defined.

(** C5, as stated, fails when the other curves do not use Actual/365
    (Fixed): the substituted dividend curve does, the quanto-currency curve
    and the index's interest-rate curve here use Actual/360. *)
Lemma substituted_dividend_day_counter :
  equityDividendCurve Fixtures.sx5e = None /\
  underlyingDividendTS
    (EquityQuantoCashFlowPricer.quantoTermStructure Fixtures.pricer
       Fixtures.sx5e 110%R 0.3%R)
    = Some (FlatForward 0 NullCalendar (Some (SimpleQuote 0%R)) Actual365Fixed) /\
  quantoCurrencyTermStructure_ Fixtures.pricer = Some Fixtures.jpy /\
  equityInterestRateCurve Fixtures.sx5e = Some Fixtures.eur /\
  dayCounter (FlatForward 0 NullCalendar (Some (SimpleQuote 0%R)) Actual365Fixed)
    <> dayCounter Fixtures.jpy /\
  dayCounter (FlatForward 0 NullCalendar (Some (SimpleQuote 0%R)) Actual365Fixed)
    <> dayCounter Fixtures.eur.
Proof.
  repeat split; cbn; discriminate.
Qed.

Lemma price_dividend_input_witness :
  index_ (afterInitialize Fixtures.cashFlow Fixtures.pricer) = Some Fixtures.sx5e /\
  exists adjusted,
    underlyingDividendTS adjusted
      = Some (FlatForward 0 NullCalendar (Some (SimpleQuote 0%R)) Actual365Fixed) /\
    EquityQuantoCashFlowPricer.price Fixtures.market
      (afterInitialize Fixtures.cashFlow Fixtures.pricer)
    = (let quantoIndex :=
         clone Fixtures.sx5e (Some Fixtures.jpy) (Some adjusted)
           (spot Fixtures.sx5e) in
       I0 ← fixing Fixtures.market quantoIndex 45000;
       I1 ← fixing Fixtures.market quantoIndex 45365;
       mret (I1 / I0)%R).
Proof.
  split; [reflexivity|].
  destruct (price_dividend_input Fixtures.market
              (afterInitialize Fixtures.cashFlow Fixtures.pricer)
              Fixtures.sx5e 110%R (SimpleQuote 0.3%R) eq_refl eq_refl eq_refl)
    as (adjusted & dividend & Ep & Ed & En & _).
  exists adjusted. split.
  - rewrite Ed. f_equal. exact (proj1 (En eq_refl)).
  - exact Ep.
Defined.

(** C6, as stated, fails on a cash flow without an equity index: its fixing
    date precedes its base date, and [initialize] raises the type error. *)
Lemma initialize_backwards_without_index :
  fixingDate (base Fixtures.nullIndexCashFlow)
    < baseDate (base Fixtures.nullIndexCashFlow) /\
  fst (EquityQuantoCashFlowPricer.initialize Fixtures.market
         Fixtures.nullIndexCashFlow Fixtures.pricer)
    = Throws "Equity index required." /\
  fst (EquityQuantoCashFlowPricer.initialize Fixtures.market
         Fixtures.nullIndexCashFlow Fixtures.pricer)
    <> Throws "Fixing date cannot fall before base date.".
Proof.
  repeat split. cbn. discriminate.
Qed.

Lemma initialize_rejects_backwards_witness :
  fixingDate (base Fixtures.backwardsCashFlow)
    < baseDate (base Fixtures.backwardsCashFlow) /\
  equityInterestRateCurve Fixtures.bareIndex = None /\
  fst (EquityQuantoCashFlowPricer.initialize Fixtures.market
         Fixtures.backwardsCashFlow Fixtures.pricerWithoutCurve)
    = Throws "Fixing date cannot fall before base date.".
Proof.
  assert (L : fixingDate (base Fixtures.backwardsCashFlow)
                < baseDate (base Fixtures.backwardsCashFlow)) by (cbn; lia).
  split; [exact L|]. split; [reflexivity|].
  exact (proj1 (proj2 (initialize_rejects_backwards Fixtures.market
                         Fixtures.backwardsCashFlow Fixtures.pricerWithoutCurve L))
               Fixtures.bareIndex eq_refl).
Defined.

(** ** ZeroInflationCashFlow *)

Section ZeroInflation_properties.
Context {ZeroInflationIndex Period InterpolationType : Type}.
Variable minus : Date -> Period -> Date.
Variable laggedFixing :
  option ZeroInflationIndex -> Date -> Period -> InterpolationType -> outcome R.
Variable fixingOf : ZeroInflationIndex -> Date -> outcome R.
Import ZeroInflationCashFlow.

(** C8. For a zero-inflation cash flow, [baseFixing()] is
    CPI::laggedFixing of its index at startDate and [indexFixing()] is
    CPI::laggedFixing at endDate, both with the observation lag and the
    interpolation type stored in the cash flow; the inherited [amount()] is
    computed from these two. *)
Theorem zeroInflation_fixings notional index interpolation startDate endDate
    observationLag paymentDate growthOnly :
  let this := new minus notional index interpolation startDate endDate
                observationLag paymentDate growthOnly in
  zeroInflationIndex_ this = index /\
  observationLag_ this = observationLag /\
  interpolation_ this = interpolation /\
  baseFixing laggedFixing this =
    laggedFixing index startDate observationLag interpolation /\
  indexFixing laggedFixing this =
    laggedFixing index endDate observationLag interpolation /\
  fst (amount laggedFixing this) =
    (I0 ← laggedFixing index startDate observationLag interpolation;
     I1 ← laggedFixing index endDate observationLag interpolation;
     mret (notional * (if growthOnly then I1 / I0 - 1 else I1 / I0))%R).
Proof.
  cbn zeta. repeat (split; [reflexivity|]).
  unfold amount, IndexedCashFlow.amount, IndexedCashFlow.performCalculations,
    baseFixing, indexFixing, IndexedCashFlow.ratio. cbn.
  destruct (laggedFixing index startDate observationLag interpolation); cbn;
    [|reflexivity].
  destruct (laggedFixing index endDate observationLag interpolation); cbn;
    reflexivity.
Qed.

(** C9. The constructor hands startDate - observationLag and
    endDate - observationLag to the base object as base date and fixing date,
    so the base-class fixings read the index at the lag-shifted dates, while
    [baseFixing()] and [indexFixing()] hand the unshifted startDate and
    endDate, together with the lag, to CPI::laggedFixing. *)
Theorem zeroInflation_dates notional index interpolation startDate endDate
    observationLag paymentDate growthOnly :
  let this := new minus notional index interpolation startDate endDate
                observationLag paymentDate growthOnly in
  baseDate (zbase this) = minus startDate observationLag /\
  fixingDate (zbase this) = minus endDate observationLag /\
  IndexedCashFlow.baseFixing fixingOf (zbase this) =
    (i ← pointee index; fixingOf i (minus startDate observationLag)) /\
  IndexedCashFlow.indexFixing fixingOf (zbase this) =
    (i ← pointee index; fixingOf i (minus endDate observationLag)) /\
  startDate_ this = startDate /\
  endDate_ this = endDate /\
  baseFixing laggedFixing this =
    laggedFixing index (startDate_ this) observationLag interpolation /\
  indexFixing laggedFixing this =
    laggedFixing index (endDate_ this) observationLag interpolation.
Proof.
  cbn zeta. repeat split.
Qed.

End ZeroInflation_properties.

Example zero_inflation_base_dates :
  baseDate (zbase Fixtures.inflationCashFlow) = 44910 /\
  fixingDate (zbase Fixtures.inflationCashFlow) = 45275 /\
  startDate_ Fixtures.inflationCashFlow = 45000 /\
  endDate_ Fixtures.inflationCashFlow = 45365.
Proof. repeat split. Qed.

Example zero_inflation_amount :
  fst (ZeroInflationCashFlow.amount Fixtures.cpiLaggedFixing
         Fixtures.inflationCashFlow)
  = Returns (1000 * (103 / 100 - 1))%R.
Proof. reflexivity. Qed.

(** ** End-to-end runs on the fixtures *)

(** The cash flow gets the pricer, the quanto-currency curve handle of the
    pricer is then emptied, and [amount()] is asked: it fails, naming the
    handle. *)
Example amount_after_emptying_handle :
  match EquityCashFlow.setPricer (Some 7%positive)
          (Fixtures.cashFlow, Fixtures.world Fixtures.pricer) with
  | (_, (c, w)) =>
      fst (EquityCashFlow.amount (H := quantoPricer Fixtures.market) Fixtures.market
             (c, {| pricers := <[7%positive := Fixtures.pricerWithoutCurve]> (pricers w);
                    observersOf := observersOf w;
                    notifications := notifications w |}))
  end = Throws "Quanto currency term structure handle cannot be empty.".
Proof. reflexivity. Qed.

(** With the pricer in place and all handles linked, [amount()] is the
    notional times the price. *)
Example amount_through_pricer :
  match EquityCashFlow.setPricer (Some 7%positive)
          (Fixtures.cashFlow, Fixtures.world Fixtures.pricer) with
  | (_, (c, w)) =>
      fst (EquityCashFlow.amount (H := quantoPricer Fixtures.market) Fixtures.market (c, w))
  end = Returns (2 * (110 / 100))%R.
Proof. reflexivity. Qed.

(** [price()] itself does not look at the handles: on a pricer that was
    initialized and then lost its quanto-currency curve, and with fixings that
    need no curve, it still returns a value. Only [initialize] checks. *)
Example price_does_not_check_handles :
  EquityQuantoCashFlowPricer.price Fixtures.market
    (afterInitialize Fixtures.cashFlow Fixtures.pricerWithoutCurve)
  = Returns (110 / 100)%R.
Proof. reflexivity. Qed.

(* ===================================================================== *)
(** * Further properties *)
(* ===================================================================== *)

(** ** TARGET calendar: the holiday regimes *)

Section TARGET_regimes.
Context {Date : Type}.
Variable weekday : Date -> TARGET.Weekday.
Variable dayOfMonth : Date -> TARGET.Day.
Variable dayOfYear : Date -> TARGET.Day.
Variable month : Date -> TARGET.Month.
Variable year : Date -> TARGET.Year.
Variable easterMonday : TARGET.Year -> TARGET.Day.

Local Abbreviation isBusinessDay :=
  (TARGET.isBusinessDay weekday dayOfMonth dayOfYear month year easterMonday).
Local Abbreviation onDayOfMonth := (TARGET.onDayOfMonth dayOfMonth month).

(** The test of [isBusinessDay], read as a proposition. *)
Lemma isBusinessDay_false_iff (date : Date) :
  isBusinessDay date = false <->
  TARGET.isSaturdayOrSunday weekday date
  \/ TARGET.isTargetHoliday dayOfMonth dayOfYear month year easterMonday date.
Proof.
  unfold TARGET.isBusinessDay, TARGET.isTargetHoliday, TARGET.isSaturdayOrSunday,
    TARGET.onDayOfMonth, TARGET.isGoodFriday, TARGET.isEasterMonday, TARGET.since2000.
  cbv zeta.
  match goal with |- (if ?b then false else true) = false <-> _ =>
    assert (E : (if b then false else true) = false <-> b = true)
      by (destruct b; intuition congruence);
    rewrite E; clear E
  end.
  rewrite !orb_true_iff, !andb_true_iff, !orb_true_iff, isWeekend_iff,
    !Month_eqb_eq, !Z.eqb_eq, !Z.geb_le.
  tauto.
Qed.

(** X1. Before 2000 the calendar knows no Easter holidays, no Labour Day and
    no December 26: a date in a year before 2000 is a holiday exactly when it
    is a Saturday or Sunday, January 1, December 25, or December 31 of 1998
    or 1999. *)
Theorem target_before_2000 (date : Date) :
  year date < 2000 ->
  (isBusinessDay date = false <->
   TARGET.isSaturdayOrSunday weekday date
   \/ onDayOfMonth date 1 TARGET.January
   \/ onDayOfMonth date 25 TARGET.December
   \/ (onDayOfMonth date 31 TARGET.December /\
       (year date = 1998 \/ year date = 1999))).
Proof.
  intros Hy. rewrite isBusinessDay_false_iff.
  unfold TARGET.isTargetHoliday, TARGET.since2000.
  intuition lia.
Qed.

(** X2. From 2002 on December 31 is no holiday of its own: a date in a year
    from 2002 on is a holiday exactly when it is a Saturday or Sunday,
    January 1, Good Friday, Easter Monday, May 1, December 25 or
    December 26. *)
Theorem target_from_2002 (date : Date) :
  2002 <= year date ->
  (isBusinessDay date = false <->
   TARGET.isSaturdayOrSunday weekday date
   \/ onDayOfMonth date 1 TARGET.January
   \/ TARGET.isGoodFriday dayOfYear year easterMonday date
   \/ TARGET.isEasterMonday dayOfYear year easterMonday date
   \/ onDayOfMonth date 1 TARGET.May
   \/ onDayOfMonth date 25 TARGET.December
   \/ onDayOfMonth date 26 TARGET.December).
Proof.
  intros Hy. rewrite isBusinessDay_false_iff.
  unfold TARGET.isTargetHoliday, TARGET.since2000.
  intuition lia.
Qed.

End TARGET_regimes.

Lemma target_before_2000_witness :
  Fixtures.cd_year Fixtures.easterMonday1999 < 2000 /\
  (Fixtures.isBusinessDay Fixtures.easterMonday1999 = false <->
   TARGET.isSaturdayOrSunday Fixtures.cd_weekday Fixtures.easterMonday1999
   \/ TARGET.onDayOfMonth Fixtures.cd_dayOfMonth Fixtures.cd_month
        Fixtures.easterMonday1999 1 TARGET.January
   \/ TARGET.onDayOfMonth Fixtures.cd_dayOfMonth Fixtures.cd_month
        Fixtures.easterMonday1999 25 TARGET.December
   \/ (TARGET.onDayOfMonth Fixtures.cd_dayOfMonth Fixtures.cd_month
         Fixtures.easterMonday1999 31 TARGET.December /\
       (Fixtures.cd_year Fixtures.easterMonday1999 = 1998 \/
        Fixtures.cd_year Fixtures.easterMonday1999 = 1999))).
Proof.
  assert (L : Fixtures.cd_year Fixtures.easterMonday1999 < 2000) by (cbn; lia).
  split; [exact L|].
  exact (target_before_2000 Fixtures.cd_weekday Fixtures.cd_dayOfMonth
           Fixtures.cd_dayOfYear Fixtures.cd_month Fixtures.cd_year
           Fixtures.easterMonday Fixtures.easterMonday1999 L).
Defined.

Lemma target_from_2002_witness :
  2002 <= Fixtures.cd_year Fixtures.newYearsEve2002 /\
  (Fixtures.isBusinessDay Fixtures.newYearsEve2002 = false <->
   TARGET.isSaturdayOrSunday Fixtures.cd_weekday Fixtures.newYearsEve2002
   \/ TARGET.onDayOfMonth Fixtures.cd_dayOfMonth Fixtures.cd_month
        Fixtures.newYearsEve2002 1 TARGET.January
   \/ TARGET.isGoodFriday Fixtures.cd_dayOfYear Fixtures.cd_year
        Fixtures.easterMonday Fixtures.newYearsEve2002
   \/ TARGET.isEasterMonday Fixtures.cd_dayOfYear Fixtures.cd_year
        Fixtures.easterMonday Fixtures.newYearsEve2002
   \/ TARGET.onDayOfMonth Fixtures.cd_dayOfMonth Fixtures.cd_month
        Fixtures.newYearsEve2002 1 TARGET.May
   \/ TARGET.onDayOfMonth Fixtures.cd_dayOfMonth Fixtures.cd_month
        Fixtures.newYearsEve2002 25 TARGET.December
   \/ TARGET.onDayOfMonth Fixtures.cd_dayOfMonth Fixtures.cd_month
        Fixtures.newYearsEve2002 26 TARGET.December).
Proof.
  assert (L : 2002 <= Fixtures.cd_year Fixtures.newYearsEve2002) by (cbn; lia).
  split; [exact L|].
  exact (target_from_2002 Fixtures.cd_weekday Fixtures.cd_dayOfMonth
           Fixtures.cd_dayOfYear Fixtures.cd_month Fixtures.cd_year
           Fixtures.easterMonday Fixtures.newYearsEve2002 L).
Defined.

(** ** The quanto pricer as a shared, mutable object *)

Section Quanto_sharing.
Variable mkt : Market.
Import EquityQuantoCashFlowPricer.

Local Abbreviation amount :=
  (EquityCashFlow.amount (H := quantoPricer mkt) mkt).
Local Abbreviation quantoAmount := (pricedAmount (H := quantoPricer mkt)).

Lemma initialize_cases cf p :
  (index (base cf) = None /\
   initialize mkt cf p = (Throws "Equity index required.", set_index_ None p))
  \/ (exists i, index (base cf) = Some i /\
        fixingDate (base cf) < baseDate (base cf) /\
        initialize mkt cf p =
          (Throws "Fixing date cannot fall before base date.", afterDates cf p))
  \/ (exists i, index (base cf) = Some i /\
        baseDate (base cf) <= fixingDate (base cf) /\
        initialize mkt cf p = (marketDataChecks mkt p, afterInitialize cf p)).
Proof.
  destruct (index (base cf)) as [i|] eqn:E.
  - destruct (Z_lt_le_dec (fixingDate (base cf)) (baseDate (base cf))) as [L|L].
    + right; left. exists i. repeat split; auto.
      apply (initialize_backwards mkt cf p i E L).
    + right; right. exists i. repeat split; auto.
      apply (initialize_forward mkt cf p i E L).
  - left. split; [reflexivity|]. apply (initialize_null_index mkt cf p E).
Qed.

Lemma initialize_handles cf p :
  handles (snd (initialize mkt cf p)) = handles p.
Proof.
  destruct (initialize_cases cf p)
    as [[_ ->]|[(i & _ & _ & ->)|(i & _ & _ & ->)]]; reflexivity.
Qed.

(** X3. [initialize] never touches the four market-data handles of the
    pricer, whether it returns or raises. *)
Theorem initialize_keeps_handles cf p :
  let p' := snd (initialize mkt cf p) in
  quantoCurrencyTermStructure_ p' = quantoCurrencyTermStructure_ p /\
  equityVolatility_ p' = equityVolatility_ p /\
  fxVolatility_ p' = fxVolatility_ p /\
  correlation_ p' = correlation_ p.
Proof.
  cbn zeta. pose proof (initialize_handles cf p) as E.
  unfold handles in E. injection E as -> -> -> ->. repeat split.
Qed.

(** X4. [initialize] is not all-or-nothing. When it raises the range error
    the pricer has already taken the index, the base date and the fixing
    date of the rejected cash flow, and still has the growth-only flag of
    its previous use. *)
Theorem initialize_range_error_leaves_dates cf p i :
  index (base cf) = Some i ->
  fixingDate (base cf) < baseDate (base cf) ->
  let p' := snd (initialize mkt cf p) in
  index_ p' = Some i /\
  baseDate_ p' = baseDate (base cf) /\
  fixingDate_ p' = fixingDate (base cf) /\
  growthOnlyPayoff_ p' = growthOnlyPayoff_ p.
Proof.
  intros E L. cbn zeta. rewrite (initialize_backwards mkt cf p i E L).
  unfold afterDates. cbn. rewrite E. repeat split.
Qed.

Lemma afterInitialize_handles cf p q :
  handles p = handles q -> afterInitialize cf p = afterInitialize cf q.
Proof.
  unfold handles. intros E. injection E as E1 E2 E3 E4.
  unfold afterInitialize, afterDates, set_growthOnlyPayoff_, set_fixingDate_,
    set_baseDate_, set_index_. cbn. rewrite E1, E2, E3, E4. reflexivity.
Qed.

Lemma marketDataChecks_handles p q :
  handles p = handles q -> marketDataChecks mkt p = marketDataChecks mkt q.
Proof.
  unfold handles, marketDataChecks. intros E. injection E as -> -> -> ->.
  reflexivity.
Qed.

(** What [amount()] gets from a pricer depends on the pricer through its
    handles only. *)
Lemma pricedAmount_handles c p q :
  handles p = handles q -> quantoAmount c p = quantoAmount c q.
Proof.
  intros E. unfold pricedAmount. cbn -[initialize price].
  destruct (initialize_cases c p)
    as [[Ei ->]|[(i & Ei & L & ->)|(i & Ei & L & ->)]].
  - rewrite (initialize_null_index mkt c q Ei). reflexivity.
  - rewrite (initialize_backwards mkt c q i Ei L). reflexivity.
  - rewrite (initialize_forward mkt c q i Ei L).
    rewrite (marketDataChecks_handles p q E), (afterInitialize_handles c p q E).
    reflexivity.
Qed.


End Quanto_sharing.

(** ** What amount() changes *)

Section EquityCashFlow_frame.
Context {P : Type} `{EquityCashFlowPricer P}.
Variable mkt : Market.
Import EquityCashFlow.

Lemma baseAmount_world (c : EquityCashFlow) (w : World P) :
  snd (snd (baseAmount mkt (c, w))) = w.
Proof.
  unfold baseAmount.
  destruct (IndexedCashFlow.amount _ _ (base c)) as [r b]. reflexivity.
Qed.

Lemma baseAmount_any_world (c : EquityCashFlow) (w w' : World P) :
  fst (baseAmount mkt (c, w)) = fst (baseAmount mkt (c, w')).
Proof.
  unfold baseAmount.
  destruct (IndexedCashFlow.amount _ _ (base c)) as [r b]. reflexivity.
Qed.

(** The state after [amount()] through the pricer behind [pid]. *)
Lemma amount_state_with_pricer (c : EquityCashFlow) (w : World P) pid :
  pricer_ c = Some pid ->
  fst (snd (amount mkt (c, w))) = c /\
  observersOf (snd (snd (amount mkt (c, w)))) = observersOf w /\
  notifications (snd (snd (amount mkt (c, w)))) = notifications w /\
  (forall q, q <> pid ->
     pricers (snd (snd (amount mkt (c, w)))) q = pricers w q) /\
  pricers (snd (snd (amount mkt (c, w)))) pid
    = snd (initialize c (pricers w pid)).
Proof.
  intros E. unfold amount, onPricer. run_method. rewrite E.
  destruct (initialize c (pricers w pid)) as [[[]|m] p']; cbn.
  - rewrite fn_lookup_insert.
    destruct (price p'); cbn; repeat split; auto.
    all: try (intros q N; rewrite !fn_lookup_insert_ne by congruence; reflexivity).
    all: rewrite !fn_lookup_insert; reflexivity.
  - repeat split; auto.
    + intros q N. rewrite fn_lookup_insert_ne by congruence. reflexivity.
    + rewrite fn_lookup_insert. reflexivity.
Qed.

(** X9. [amount()] through a pricer changes nothing but that pricer: the
    cash flow (its cache included), the observers of every pricer, the
    notifications sent and all other pricers are as before, and the pricer
    is left as [initialize] left it. *)
Theorem amount_with_pricer_frame (c : EquityCashFlow) (w : World P) pid :
  pricer_ c = Some pid ->
  let after := snd (amount mkt (c, w)) in
  fst after = c /\
  observersOf (snd after) = observersOf w /\
  notifications (snd after) = notifications w /\
  (forall q, q <> pid -> pricers (snd after) q = pricers w q) /\
  pricers (snd after) pid = snd (initialize c (pricers w pid)).
Proof.
  intros E. cbn zeta. exact (amount_state_with_pricer c w pid E).
Qed.

End EquityCashFlow_frame.

Section Quanto_amount.
Variable mkt : Market.
Import EquityQuantoCashFlowPricer.

Local Abbreviation amount :=
  (EquityCashFlow.amount (H := quantoPricer mkt) mkt).
Local Abbreviation quantoAmount := (pricedAmount (H := quantoPricer mkt)).

Lemma amount_keeps_handles c w q :
  handles (pricers (snd (snd (amount (c, w)))) q) = handles (pricers w q).
Proof.
  destruct (pricer_ c) as [pid|] eqn:E.
  - destruct (amount_state_with_pricer (H := quantoPricer mkt) mkt c w pid E)
      as (_ & _ & _ & Hne & Heq).
    destruct (decide (q = pid)) as [->|N].
    + rewrite Heq. apply (initialize_handles mkt).
    + rewrite (Hne q N). reflexivity.
  - rewrite (amount_without_pricer (H := quantoPricer mkt) mkt c w E).
    rewrite baseAmount_world. reflexivity.
Qed.

(** X5. A pricer may serve many cash flows: what [amount()] returns for a
    cash flow does not depend on the cash flow that [amount()] was asked
    for just before, with the same or any other pricer. *)
Theorem amount_independent_of_previous_use c1 c2 w :
  fst (amount (c2, snd (snd (amount (c1, w))))) = fst (amount (c2, w)).
Proof.
  destruct (pricer_ c2) as [pid|] eqn:E.
  - rewrite !(amount_with_pricer (H := quantoPricer mkt) mkt c2 _ pid E).
    apply (pricedAmount_handles mkt). apply amount_keeps_handles.
  - rewrite !(amount_without_pricer (H := quantoPricer mkt) mkt c2 _ E).
    apply baseAmount_any_world.
Qed.

(** X6. Through the quanto pricer the growth-only flag changes nothing but
    the last subtraction: where the cash flow paying the full ratio is
    priced at x, the same cash flow paying growth only is priced at x - 1
    and its amount is notional * (x - 1), evaluated in that order; where
    one raises, the other raises the same error. *)
Theorem growth_only_amount c p :
  pricedRatio (H := quantoPricer mkt) (withGrowthOnly true c) p =
    (fun x => x - 1)%R <$>
      pricedRatio (H := quantoPricer mkt) (withGrowthOnly false c) p
  /\ quantoAmount (withGrowthOnly true c) p =
    (fun x => notional (base c) * (x - 1))%R <$>
      pricedRatio (H := quantoPricer mkt) (withGrowthOnly false c) p
  /\ quantoAmount (withGrowthOnly false c) p =
    (fun x => notional (base c) * x)%R <$>
      pricedRatio (H := quantoPricer mkt) (withGrowthOnly false c) p.
Proof.
  unfold pricedAmount, pricedRatio. cbn -[initialize price].
  destruct (index (base c)) as [i|] eqn:Ei.
  2: { rewrite !initialize_null_index by exact Ei. repeat split. }
  destruct (Z_lt_le_dec (fixingDate (base c)) (baseDate (base c))) as [L|L].
  { rewrite !(initialize_backwards mkt _ p i) by assumption. repeat split. }
  rewrite !(initialize_forward mkt _ p i) by assumption.
  destruct (marketDataChecks mkt p) as [[]|m]; [|repeat split].
  unfold price, afterInitialize, afterDates. cbn. rewrite Ei. cbn.
  destruct (fixing mkt i (fixingDate (base c))) as [strike|m]; cbn;
    [|repeat split].
  destruct (correlation_ p) as [rho|]; cbn; [|repeat split].
  destruct (fixing mkt _ (baseDate (base c))) as [I0|m]; cbn; [|repeat split].
  destruct (fixing mkt _ (fixingDate (base c))) as [I1|m]; cbn; repeat split.
Qed.

(** X7. A cash flow that fixes on its base date: when no index fixing is
    zero, the price the initialized pricer returns is 1, or 0 for a
    growth-only cash flow, whatever the curves, volatilities and
    correlation. *)
Theorem price_on_base_date cf p p' v :
  initialize mkt cf p = (Returns tt, p') ->
  fixingDate (base cf) = baseDate (base cf) ->
  (forall i d, fixing mkt i d <> Returns 0%R) ->
  price mkt p' = Returns v ->
  v = (if growthOnly (base cf) then 0 else 1)%R.
Proof.
  intros Hi Ed Hnz Hp.
  apply initialize_Returns_inv in Hi
    as (i & q & ev & fv & rho & Ei & _ & Eq & Eev & Efv & Erho & _ & _ & ->).
  revert Hp. unfold price, afterInitialize, afterDates. cbn.
  rewrite Ei, Erho, Ed. cbn.
  destruct (fixing mkt i (baseDate (base cf))) as [strike|m]; cbn; [|discriminate].
  match goal with |- context [fixing mkt ?qi (baseDate (base cf))] =>
    pose proof (Hnz qi (baseDate (base cf))) as Hq;
    destruct (fixing mkt qi (baseDate (base cf))) as [I0|m]; cbn; [|discriminate]
  end.
  assert (I0 <> 0)%R by congruence.
  destruct (growthOnly (base cf)); unfold mret, outcome_ret;
    intros E; injection E as <-; field; assumption.
Qed.

(** X8. A failing index fixing reaches the caller of [amount()] unchanged:
    when the pricer initializes for the cash flow and the index raises for
    the fixing date, [amount()] raises that same error. *)
Theorem amount_propagates_fixing_error c w pid i m :
  pricer_ c = Some pid ->
  index (base c) = Some i ->
  fst (initialize mkt c (pricers w pid)) = Returns tt ->
  fixing mkt i (fixingDate (base c)) = Throws m ->
  fst (amount (c, w)) = Throws m.
Proof.
  intros E Ei Hi Hf.
  rewrite (amount_with_pricer (H := quantoPricer mkt) mkt c w pid E).
  unfold pricedAmount. cbn -[initialize price].
  destruct (initialize mkt c (pricers w pid)) as [r p'] eqn:Hinit.
  cbn in Hi. subst r.
  apply initialize_Returns_inv in Hinit
    as (i' & q & ev & fv & rho & Ei' & _ & _ & _ & _ & _ & _ & _ & ->).
  unfold price, afterInitialize, afterDates. cbn.
  rewrite Ei. cbn. rewrite Hf. reflexivity.
Qed.

End Quanto_amount.

(** ** setPricer and the observers *)

Section SetPricer_observers.
Context {P : Type}.
Import EquityCashFlow.

Lemma setPricer_run (p : option PricerId) (c : EquityCashFlow) (w : World P) :
  setPricer p (c, w) =
    (Returns tt, (cashFlowAfterSetPricer p c, worldAfterSetPricer p c w)).
Proof. apply setPricer_eq. Qed.

(** Membership in the observer sets after [setPricer(p)]. *)
Lemma elem_of_observersAfterSetPricer p c (w : World P) o q :
  o ∈ observersAfterSetPricer p c w q <->
  (o = self c /\ p = Some q)
  \/ (o <> self c /\ o ∈ observersOf w q)
  \/ (o = self c /\ o ∈ observersOf w q /\ pricer_ c <> Some q).
Proof.
  unfold observersAfterSetPricer.
  destruct p as [pn|], (pricer_ c) as [old|].
  - destruct (decide (pn = q)) as [->|Np].
    + rewrite fn_lookup_insert, elem_of_union, elem_of_singleton.
      destruct (decide (old = q)) as [->|No].
      * rewrite fn_lookup_insert, elem_of_difference, elem_of_singleton.
        destruct (decide (o = self c)); intuition congruence.
      * rewrite fn_lookup_insert_ne by congruence.
        destruct (decide (o = self c)); intuition congruence.
    + rewrite fn_lookup_insert_ne by congruence.
      destruct (decide (old = q)) as [->|No].
      * rewrite fn_lookup_insert, elem_of_difference, elem_of_singleton.
        intuition congruence.
      * rewrite fn_lookup_insert_ne by congruence.
        destruct (decide (o = self c)); intuition congruence.
  - destruct (decide (pn = q)) as [->|Np].
    + rewrite fn_lookup_insert, elem_of_union, elem_of_singleton.
      destruct (decide (o = self c)); intuition congruence.
    + rewrite fn_lookup_insert_ne by congruence.
      destruct (decide (o = self c)); intuition congruence.
  - destruct (decide (old = q)) as [->|No].
    + rewrite fn_lookup_insert, elem_of_difference, elem_of_singleton.
      intuition congruence.
    + rewrite fn_lookup_insert_ne by congruence.
      destruct (decide (o = self c)); intuition congruence.
  - destruct (decide (o = self c)); intuition congruence.
Qed.

(** X10. [setPricer] adds and removes no observer but the cash flow
    itself: every other observer of every pricer stays exactly where it
    was. *)
Theorem setPricer_other_observers p c (w : World P) o q :
  o <> self c ->
  (o ∈ observersOf (snd (snd (setPricer p (c, w)))) q <-> o ∈ observersOf w q).
Proof.
  intros N. rewrite setPricer_run. cbn.
  rewrite elem_of_observersAfterSetPricer. intuition congruence.
Qed.

Lemma observesItsPricer_setPricer p c (w : World P) :
  observesItsPricer c w ->
  observesItsPricer (cashFlowAfterSetPricer p c) (worldAfterSetPricer p c w).
Proof.
  intros Inv q. cbn. rewrite elem_of_observersAfterSetPricer.
  specialize (Inv q). intuition congruence.
Qed.

(** X11. A cash flow that observes its pricer and no other still does so
    after [setPricer(p)], now for [p]: it is an observer of [p] and of no
    other pricer. *)
Theorem setPricer_keeps_registration p c (w : World P) :
  observesItsPricer c w ->
  observesItsPricer (fst (snd (setPricer p (c, w))))
                    (snd (snd (setPricer p (c, w)))).
Proof.
  intros Inv. rewrite setPricer_run. cbn [fst snd].
  apply observesItsPricer_setPricer. exact Inv.
Qed.

(** X12. Setting the same pricer twice is setting it once: the cash flow,
    the pricers and every observer set are the same after the second call
    as after the first; only the observers of the cash flow itself are
    notified once more. *)
Theorem setPricer_twice p c (w : World P) :
  let once := snd (setPricer p (c, w)) in
  let twice := snd (setPricer p once) in
  fst twice = fst once /\
  pricers (snd twice) = pricers (snd once) /\
  (forall q, observersOf (snd twice) q = observersOf (snd once) q) /\
  notifications (snd twice) =
    notifications (snd once) ++ observers_ (base c).
Proof.
  cbn zeta. rewrite setPricer_run. cbn [fst snd].
  rewrite setPricer_run. cbn [fst snd].
  split; [reflexivity|]. split; [reflexivity|]. split; [|reflexivity].
  intros q. apply set_eq. intros o.
  change (observersOf (worldAfterSetPricer p (cashFlowAfterSetPricer p c)
                         (worldAfterSetPricer p c w)) q)
    with (observersAfterSetPricer p (cashFlowAfterSetPricer p c)
            (worldAfterSetPricer p c w) q).
  rewrite elem_of_observersAfterSetPricer. cbn.
  pose proof (elem_of_observersAfterSetPricer p c w o q) as E.
  destruct (decide (o = self c)), (decide (p = Some q)); intuition congruence.
Qed.

(** X13. Setting a pricer and then clearing it: a cash flow that observed
    its pricer and no other ends without pricer and observes no pricer at
    all, while the pricers and all other observers are as at the start. *)
Theorem setPricer_then_clear q c (w : World P) :
  observesItsPricer c w ->
  let set := snd (setPricer (Some q) (c, w)) in
  let cleared := snd (setPricer None set) in
  pricer_ (fst cleared) = None /\
  (forall q', self c ∉ observersOf (snd cleared) q') /\
  (forall o q', o <> self c ->
     (o ∈ observersOf (snd cleared) q' <-> o ∈ observersOf w q')) /\
  pricers (snd cleared) = pricers w.
Proof.
  intros Inv. cbn zeta. rewrite setPricer_run. cbn [fst snd].
  rewrite setPricer_run. cbn [fst snd].
  split; [reflexivity|].
  pose proof (observesItsPricer_setPricer None _ _
                (observesItsPricer_setPricer (Some q) c w Inv)) as Inv2.
  split.
  { intros q' Hin. apply (Inv2 q') in Hin. discriminate. }
  split; [|reflexivity].
  intros o q' N.
  change (observersOf (worldAfterSetPricer None (cashFlowAfterSetPricer (Some q) c)
                         (worldAfterSetPricer (Some q) c w)) q')
    with (observersAfterSetPricer None (cashFlowAfterSetPricer (Some q) c)
            (worldAfterSetPricer (Some q) c w) q').
  rewrite elem_of_observersAfterSetPricer. cbn.
  pose proof (elem_of_observersAfterSetPricer (Some q) c w o q') as E.
  intuition congruence.
Qed.

End SetPricer_observers.

Lemma setPricer_keeps_registration_witness :
  observesItsPricer Fixtures.cashFlow (Fixtures.world Fixtures.pricer) /\
  observesItsPricer
    (fst (snd (EquityCashFlow.setPricer (Some 7%positive)
                 (Fixtures.cashFlow, Fixtures.world Fixtures.pricer))))
    (snd (snd (EquityCashFlow.setPricer (Some 7%positive)
                 (Fixtures.cashFlow, Fixtures.world Fixtures.pricer)))).
Proof.
  assert (I : observesItsPricer Fixtures.cashFlow (Fixtures.world Fixtures.pricer)).
  { intros q. cbn. split; [intros Hin | discriminate].
    exfalso. exact (not_elem_of_empty _ Hin). }
  split; [exact I|].
  exact (setPricer_keeps_registration (Some 7%positive) Fixtures.cashFlow
           (Fixtures.world Fixtures.pricer) I).
Defined.

Lemma setPricer_then_clear_witness :
  observesItsPricer Fixtures.cashFlow (Fixtures.world Fixtures.pricer) /\
  forall q', self Fixtures.cashFlow ∉
    observersOf
      (snd (snd (EquityCashFlow.setPricer None
         (snd (EquityCashFlow.setPricer (Some 7%positive)
                 (Fixtures.cashFlow, Fixtures.world Fixtures.pricer)))))) q'.
Proof.
  assert (I : observesItsPricer Fixtures.cashFlow (Fixtures.world Fixtures.pricer)).
  { intros q. cbn. split; [intros Hin | discriminate].
    exfalso. exact (not_elem_of_empty _ Hin). }
  split; [exact I|].
  exact (proj1 (proj2 (setPricer_then_clear 7%positive Fixtures.cashFlow
                         (Fixtures.world Fixtures.pricer) I))).
Defined.

Lemma setPricer_other_observers_witness :
  (2%positive : ObserverId) <> self Fixtures.cashFlow /\
  ((2%positive : ObserverId) ∈
     observersOf
       (snd (snd (EquityCashFlow.setPricer (Some 7%positive)
                    (Fixtures.cashFlow, Fixtures.world Fixtures.pricer))))
       7%positive
   <-> (2%positive : ObserverId) ∈
         observersOf (Fixtures.world Fixtures.pricer) 7%positive).
Proof.
  assert (N : (2%positive : ObserverId) <> self Fixtures.cashFlow)
    by (cbn; discriminate).
  split; [exact N|].
  exact (setPricer_other_observers (Some 7%positive) Fixtures.cashFlow
           (Fixtures.world Fixtures.pricer) 2%positive 7%positive N).
Defined.

(** ** setCouponPricer *)

Section SetCouponPricer.
Context {P : Type}.
Import Leg.

(** One turn of the loop. *)
Lemma setCouponPricer_cons i rest p (s : Store) (w : World P) :
  setCouponPricer (i :: rest) p (s, w) =
    match dynamic_pointer_cast s i with
    | Some (a, c) =>
        setCouponPricer rest p
          (<[a := IsEquityCashFlow (cashFlowAfterSetPricer p c)]> s,
           worldAfterSetPricer p c w)
    | None => setCouponPricer rest p (s, w)
    end.
Proof.
  cbn [setCouponPricer]. run_method.
  destruct (dynamic_pointer_cast s i) as [[a c]|]; [|reflexivity].
  unfold setPricerAt. rewrite setPricer_run. reflexivity.
Qed.

Lemma dynamic_pointer_cast_Some (s : Store) i a c :
  dynamic_pointer_cast s i = Some (a, c) <->
  i = Some a /\ s a = IsEquityCashFlow c.
Proof.
  unfold dynamic_pointer_cast. destruct i as [b|]; [|intuition congruence].
  destruct (s b) eqn:E; split.
  - intros [= <- <-]. auto.
  - intros [[= <-] E']. congruence.
  - discriminate.
  - intros [[= <-] E']. congruence.
Qed.

Lemma dynamic_pointer_cast_None (s : Store) i :
  dynamic_pointer_cast s i = None <->
  i = None \/ exists a x, i = Some a /\ s a = OtherCashFlow x.
Proof.
  unfold dynamic_pointer_cast. destruct i as [b|]; [|intuition].
  destruct (s b) eqn:E; split.
  - discriminate.
  - intros [|(a & x & [= <-] & E')]; congruence.
  - intros _. right. eauto.
  - reflexivity.
Qed.

(** The loop runs to its end and leaves the pricers alone. *)
Lemma setCouponPricer_returns leg p : forall (s : Store) (w : World P),
  fst (setCouponPricer leg p (s, w)) = Returns tt /\
  pricers (snd (snd (setCouponPricer leg p (s, w)))) = pricers w.
Proof.
  induction leg as [|i rest IH]; intros s w; [split; reflexivity|].
  rewrite setCouponPricer_cons.
  destruct (dynamic_pointer_cast s i) as [[a c]|]; [|apply IH].
  destruct (IH (<[a := IsEquityCashFlow (cashFlowAfterSetPricer p c)]> s)
               (worldAfterSetPricer p c w)) as [Hr Hp].
  split; [exact Hr | exact Hp].
Qed.

(** What the loop does to the object behind each pointer. *)
Lemma setCouponPricer_store leg p : forall (s : Store) (w : World P) a,
  match s a with
  | OtherCashFlow x =>
      fst (snd (setCouponPricer leg p (s, w))) a = OtherCashFlow x
  | IsEquityCashFlow c =>
      exists c',
        fst (snd (setCouponPricer leg p (s, w))) a = IsEquityCashFlow c' /\
        self c' = self c /\
        (exists calc amt, base c' = IndexedCashFlow.set_cache calc amt (base c)) /\
        (Some a ∈ leg -> pricer_ c' = p /\ calculated_ (base c') = false) /\
        (Some a ∉ leg -> c' = c)
  end.
Proof.
  induction leg as [|i rest IH]; intros s w a.
  - cbn. destruct (s a) as [c|x]; [|reflexivity].
    exists c. split; [reflexivity|]. split; [reflexivity|].
    split.
    { exists (calculated_ (base c)), (amount_ (base c)).
      destruct c as [sf [] pr]; reflexivity. }
    split; [|reflexivity].
    intros Hin. apply elem_of_nil in Hin. contradiction.
  - rewrite setCouponPricer_cons.
    destruct (dynamic_pointer_cast s i) as [[a0 c0]|] eqn:D.
    + apply dynamic_pointer_cast_Some in D as [-> E0].
      specialize (IH (<[a0 := IsEquityCashFlow (cashFlowAfterSetPricer p c0)]> s)
                     (worldAfterSetPricer p c0 w) a).
      destruct (decide (a0 = a)) as [->|N].
      * rewrite fn_lookup_insert in IH. rewrite E0.
        destruct IH as (c' & Es & Hself & (calc & amt & Hb) & Hin & Hout).
        exists c'. split; [exact Es|]. split; [exact Hself|].
        split; [exists calc, amt; rewrite Hb; reflexivity|].
        split.
        -- intros _. destruct (decide (Some a ∈ rest)) as [M|M].
           ++ apply Hin, M.
           ++ rewrite (Hout M). split; reflexivity.
        -- intros Hn. exfalso. apply Hn. left.
      * rewrite fn_lookup_insert_ne in IH by congruence.
        destruct (s a) as [c|x]; [|exact IH].
        destruct IH as (c' & Es & Hself & Hb & Hin & Hout).
        exists c'. split; [exact Es|]. split; [exact Hself|].
        split; [exact Hb|]. split.
        -- intros M. apply Hin.
           apply elem_of_cons in M as [M|M]; [congruence|exact M].
        -- intros Hn. apply Hout. intros M. apply Hn. right. exact M.
    + specialize (IH s w a).
      destruct (s a) as [c|x] eqn:Ea; [|exact IH].
      destruct IH as (c' & Es & Hself & Hb & Hin & Hout).
      exists c'. split; [exact Es|]. split; [exact Hself|].
      split; [exact Hb|]. split.
      * intros M. apply Hin. apply elem_of_cons in M as [<-|M]; [|exact M].
        apply dynamic_pointer_cast_None in D as [D|(a' & x & D & D')];
          congruence.
      * intros Hn. apply Hout. intros M. apply Hn. right. exact M.
Qed.

Lemma observersOf_worldAfterSetPricer p c (w : World P) q :
  observersOf (worldAfterSetPricer p c w) q = observersAfterSetPricer p c w q.
Proof. reflexivity. Qed.

(** Whoever observes pricer [q], or is an equity cash flow of the leg,
    observes [q] after [setCouponPricer(leg, q)]. *)
Lemma setCouponPricer_observers leg q : forall (s : Store) (w : World P) o,
  o ∈ observersOf w q
  \/ (exists a c, Some a ∈ leg /\ s a = IsEquityCashFlow c /\ o = self c) ->
  o ∈ observersOf (snd (snd (setCouponPricer leg (Some q) (s, w)))) q.
Proof.
  induction leg as [|i rest IH]; intros s w o Ho.
  - destruct Ho as [Ho|(a & c & Hin & _)]; [exact Ho|].
    apply elem_of_nil in Hin. contradiction.
  - rewrite setCouponPricer_cons.
    destruct (dynamic_pointer_cast s i) as [[a0 c0]|] eqn:D.
    + apply dynamic_pointer_cast_Some in D as [-> E0].
      apply IH.
      destruct Ho as [Ho|(a & c & Hin & Ea & ->)].
      * left.
        rewrite observersOf_worldAfterSetPricer, elem_of_observersAfterSetPricer.
        destruct (decide (o = self c0)); [left|right; left]; auto.
      * apply elem_of_cons in Hin as [[= ->]|Hin].
        -- left.
           rewrite observersOf_worldAfterSetPricer, elem_of_observersAfterSetPricer.
           left. split; [congruence|reflexivity].
        -- destruct (decide (a0 = a)) as [->|N].
           ++ left.
              rewrite observersOf_worldAfterSetPricer,
                elem_of_observersAfterSetPricer.
              left. split; [congruence|reflexivity].
           ++ right. exists a, c. split; [exact Hin|].
              rewrite fn_lookup_insert_ne by congruence. auto.
    + apply IH.
      destruct Ho as [Ho|(a & c & Hin & Ea & ->)]; [left; exact Ho|].
      right. exists a, c. split; [|split; [exact Ea|reflexivity]].
      apply elem_of_cons in Hin as [Hi|Hin]; [|exact Hin]. subst i.
      apply dynamic_pointer_cast_None in D as [D|(a' & x & D & D')]; congruence.
Qed.

(** X14. [setCouponPricer(leg, p)] always returns, and every
    [EquityCashFlow] the leg points to ends with pricer [p], marked stale,
    its contract data unchanged, and (when [p] is not null) registered as an
    observer of [p]; a cash flow that occurs more than once in the leg
    is no exception. *)
Theorem setCouponPricer_sets_every_equity_cash_flow leg p (s : Store) (w : World P) :
  let after := snd (setCouponPricer leg p (s, w)) in
  fst (setCouponPricer leg p (s, w)) = Returns tt /\
  forall a c, Some a ∈ leg -> s a = IsEquityCashFlow c ->
    exists c',
      fst after a = IsEquityCashFlow c' /\
      pricer_ c' = p /\
      calculated_ (base c') = false /\
      self c' = self c /\
      (exists calc amt, base c' = IndexedCashFlow.set_cache calc amt (base c)) /\
      (forall q, p = Some q -> self c ∈ observersOf (snd after) q).
Proof.
  cbn zeta. split; [apply setCouponPricer_returns|].
  intros a c Hin Ea.
  pose proof (setCouponPricer_store leg p s w a) as Hs. rewrite Ea in Hs.
  destruct Hs as (c' & Es & Hself & Hb & Hp & _).
  exists c'. destruct (Hp Hin) as [Hpr Hst].
  repeat split; auto.
  intros q ->. apply setCouponPricer_observers. right. eauto.
Qed.

(** X15. [setCouponPricer] touches nothing else: the pricers are
    unchanged, a cash flow of another class stays as it is whether in the
    leg or not, an equity cash flow outside the leg stays as it is, and
    no observer of [p] is lost. *)
Theorem setCouponPricer_frame leg p (s : Store) (w : World P) :
  let after := snd (setCouponPricer leg p (s, w)) in
  pricers (snd after) = pricers w /\
  (forall a x, s a = OtherCashFlow x -> fst after a = OtherCashFlow x) /\
  (forall a, Some a ∉ leg -> fst after a = s a) /\
  (forall q o, p = Some q -> o ∈ observersOf w q -> o ∈ observersOf (snd after) q).
Proof.
  cbn zeta. split; [apply setCouponPricer_returns|].
  split; [|split].
  - intros a x Ea. pose proof (setCouponPricer_store leg p s w a) as Hs.
    rewrite Ea in Hs. exact Hs.
  - intros a Hn. pose proof (setCouponPricer_store leg p s w a) as Hs.
    destruct (s a) as [c|x]; [|exact Hs].
    destruct Hs as (c' & Es & _ & _ & _ & Hout). rewrite Es, (Hout Hn). reflexivity.
  - intros q o -> Ho. apply setCouponPricer_observers. left. exact Ho.
Qed.

End SetCouponPricer.

Example setCouponPricer_on_leg :
  match snd (Leg.setCouponPricer MoreFixtures.leg (Some 7%positive)
               (MoreFixtures.store, Fixtures.world Fixtures.pricer)) with
  | (s, w) =>
      (match s 1%positive with
       | IsEquityCashFlow c => pricer_ c
       | OtherCashFlow _ => None
       end,
       s 2%positive,
       match s 3%positive with
       | IsEquityCashFlow c => pricer_ c
       | OtherCashFlow _ => Some 1%positive
       end)
  end = (Some 7%positive, OtherCashFlow 5%R, None).
Proof. reflexivity. Qed.

(** ** Witnesses of the further properties *)

Lemma initialize_range_error_leaves_dates_witness :
  index (base Fixtures.backwardsCashFlow) = Some Fixtures.bareIndex /\
  fixingDate (base Fixtures.backwardsCashFlow)
    < baseDate (base Fixtures.backwardsCashFlow) /\
  baseDate_ (snd (EquityQuantoCashFlowPricer.initialize Fixtures.market
                    Fixtures.backwardsCashFlow MoreFixtures.usedPricer)) = 45365 /\
  growthOnlyPayoff_ (snd (EquityQuantoCashFlowPricer.initialize Fixtures.market
                    Fixtures.backwardsCashFlow MoreFixtures.usedPricer)) = true.
Proof.
  assert (L : fixingDate (base Fixtures.backwardsCashFlow)
                < baseDate (base Fixtures.backwardsCashFlow)) by (cbn; lia).
  split; [reflexivity|]. split; [exact L|].
  destruct (initialize_range_error_leaves_dates Fixtures.market
              Fixtures.backwardsCashFlow MoreFixtures.usedPricer
              Fixtures.bareIndex eq_refl L) as (_ & Hb & _ & Hg).
  split; [exact Hb | exact Hg].
Defined.

Lemma price_on_base_date_witness :
  EquityQuantoCashFlowPricer.initialize Fixtures.market
    MoreFixtures.sameDayCashFlow Fixtures.pricer
    = (Returns tt, afterInitialize MoreFixtures.sameDayCashFlow Fixtures.pricer) /\
  fixingDate (base MoreFixtures.sameDayCashFlow)
    = baseDate (base MoreFixtures.sameDayCashFlow) /\
  (forall i d, fixing Fixtures.market i d <> Returns 0%R) /\
  EquityQuantoCashFlowPricer.price Fixtures.market
    (afterInitialize MoreFixtures.sameDayCashFlow Fixtures.pricer)
    = Returns (100 / 100 - 1)%R /\
  (100 / 100 - 1 = 0)%R.
Proof.
  assert (N : forall i d, fixing Fixtures.market i d <> Returns 0%R).
  { intros i d. cbn. destruct (d <=? 45000); intros E; injection E as E; lra. }
  split; [reflexivity|]. split; [reflexivity|]. split; [exact N|].
  split; [reflexivity|].
  exact (price_on_base_date Fixtures.market MoreFixtures.sameDayCashFlow
           Fixtures.pricer _ _ eq_refl eq_refl N eq_refl).
Defined.

Lemma amount_propagates_fixing_error_witness :
  pricer_ (EquityCashFlow.set_pricer_ (Some 7%positive) Fixtures.cashFlow)
    = Some 7%positive /\
  fst (EquityQuantoCashFlowPricer.initialize MoreFixtures.marketWithoutFixing
         (EquityCashFlow.set_pricer_ (Some 7%positive) Fixtures.cashFlow)
         Fixtures.pricer) = Returns tt /\
  fixing MoreFixtures.marketWithoutFixing Fixtures.sx5e 45365
    = Throws "Missing SX5E fixing" /\
  fst (EquityCashFlow.amount
         (H := quantoPricer MoreFixtures.marketWithoutFixing)
         MoreFixtures.marketWithoutFixing
         (EquityCashFlow.set_pricer_ (Some 7%positive) Fixtures.cashFlow,
          Fixtures.world Fixtures.pricer))
    = Throws "Missing SX5E fixing".
Proof.
  split; [reflexivity|]. split; [reflexivity|]. split; [reflexivity|].
  exact (amount_propagates_fixing_error MoreFixtures.marketWithoutFixing
           (EquityCashFlow.set_pricer_ (Some 7%positive) Fixtures.cashFlow)
           (Fixtures.world Fixtures.pricer) 7%positive Fixtures.sx5e
           "Missing SX5E fixing" eq_refl eq_refl eq_refl eq_refl).
Defined.

Lemma amount_with_pricer_frame_witness :
  pricer_ (EquityCashFlow.set_pricer_ (Some 7%positive) Fixtures.cashFlow)
    = Some 7%positive /\
  fst (snd (EquityCashFlow.amount (H := quantoPricer Fixtures.market)
              Fixtures.market
              (EquityCashFlow.set_pricer_ (Some 7%positive) Fixtures.cashFlow,
               Fixtures.world Fixtures.pricer)))
    = EquityCashFlow.set_pricer_ (Some 7%positive) Fixtures.cashFlow.
Proof.
  split; [reflexivity|].
  exact (proj1 (amount_with_pricer_frame (H := quantoPricer Fixtures.market)
                  Fixtures.market
                  (EquityCashFlow.set_pricer_ (Some 7%positive) Fixtures.cashFlow)
                  (Fixtures.world Fixtures.pricer) 7%positive eq_refl)).
Defined.
